(** * PC-Metrics: the simulator, the telemetry aggregator, the fan-curve
    recommender and the log reader, as Rocq functions

    The Python sources are [simulate_pc_metrics.py] (class
    [PCComponentSimulator], the main loop and the local log),
    [config.py], [claude_ai.py] (class [ClaudeAIOptimizer]), [app.py]
    ([load_sensor_data], [generate_ai_fan_curves],
    [analyze_temperature_patterns]) and [start_dashboard.py]
    ([check_requirements]).

    Conventions of the embedding.
    - Python [float] values are exact rationals ([Q]): every arithmetic
      step is the exact one, rounding of binary64 is not modelled.  Integer
      values ([session_time], RPM set points, time stamps) are [Z].
    - What the interpreter takes from outside the program is a parameter:
      the generator behind [random.random] and [random.randint], [math.sin]
      and the [** 0.5] of floats (class [PyRuntime]), the readings of
      [time.time()] (a sequence indexed by the number of calls made so
      far), the answer of [requests.post], and [json.loads].
    - A raised exception is a value of [Py.result]; [try]/[except] is
      [Py.try_except].  [print] calls have no counterpart. *)

From Stdlib Require Import ZArith QArith Qround String Ascii List Bool Lia Lqa.
From Stdlib Require DecimalString Sorted.
From stdpp Require Import gmap strings.
Import ListNotations.

#[local] Set Warnings "-register-all".

(** ** Python values and built-ins *)

Module Py.
Local Open Scope Q_scope.

Inductive exn : Type :=
| KeyError (key : string)
| ValueError (msg : string)
| TypeError
| AttributeError
| IndexError
| JSONDecodeError
| RequestException.

Inductive result (A : Type) : Type :=
| Ok (a : A)
| Raise (e : exn).
Arguments Ok {A} a.
Arguments Raise {A} e.

Definition bind {A B : Type} (m : result A) (k : A -> result B) : result B :=
  match m with
  | Ok a => k a
  | Raise e => Raise e
  end.

(** Statements in sequence: [x ← m; k] stops at the first exception. *)
#[global] Instance result_ret : MRet result := @Ok.
#[global] Instance result_bind : MBind result := fun A B k m => bind m k.

(** [try: body / except Exception: handler]. *)
Definition try_except {A : Type} (body : result A) (handler : exn -> result A)
  : result A :=
  match body with
  | Ok a => Ok a
  | Raise e => handler e
  end.

Definition Qltb (a b : Q) : bool := negb (Qle_bool b a).
Definition Qleb (a b : Q) : bool := Qle_bool a b.

(** [min(a, b)] keeps [a] unless [b < a]; [max(a, b)] keeps [a] unless
    [b > a] (the built-ins scan their arguments from the left). *)
Definition py_min (a b : Q) : Q := if Qltb b a then b else a.
Definition py_max (a b : Q) : Q := if Qltb a b then b else a.

(** [sum(xs)]: a left fold that starts from the integer [0]. *)
Definition py_sum (xs : list Q) : Q := fold_left Qplus xs 0.

(** [min(xs)] and [max(xs)] over a non-empty list; [ValueError] on []. *)
Definition py_min_list (xs : list Q) : result Q :=
  match xs with
  | [] => Raise (ValueError "min() arg is an empty sequence")
  | x :: rest => Ok (fold_left py_min rest x)
  end.

Definition py_max_list (xs : list Q) : result Q :=
  match xs with
  | [] => Raise (ValueError "max() arg is an empty sequence")
  | x :: rest => Ok (fold_left py_max rest x)
  end.

Definition len {A : Type} (xs : list A) : Q := inject_Z (Z.of_nat (length xs)).

(** [int(x)] truncates toward zero. *)
Definition py_int (x : Q) : Z := Z.quot (Qnum x) (Zpos (Qden x)).

(** [round(x, ndigits)]: nearest multiple of [10^-ndigits], ties to the
    even one. *)
Definition round_half_even (y : Q) : Z :=
  let f := Qfloor y in
  match Qcompare (y - inject_Z f) (1 # 2) with
  | Lt => f
  | Gt => (f + 1)%Z
  | Eq => if Z.even f then f else (f + 1)%Z
  end.

Definition py_round (x : Q) (ndigits : nat) : Q :=
  let scale := inject_Z (10 ^ Z.of_nat ndigits) in
  inject_Z (round_half_even (x * scale)) / scale.

(** [xs[-n:]]: the last [n] elements (all of them when there are fewer). *)
Definition last_n {A : Type} (n : nat) (xs : list A) : list A :=
  skipn (length xs - n) xs.
End Py.

(** What the program reads from the interpreter's libraries. *)
Class PyRuntime : Type := {
  rng : Type;                              (* state of the [random] module *)
  random : rng -> Q * rng;                 (* [random.random()]            *)
  randint : Z -> Z -> rng -> Z * rng;      (* [random.randint(a, b)]       *)
  sin : Q -> Q;                            (* [math.sin]                   *)
  pow_half : Q -> Q                        (* [x ** 0.5]                   *)
}.

(** [random.uniform(a, b)] is [a + (b - a) * self.random()]. *)
Definition uniform `{PyRuntime} (a b : Q) (g : rng) : Q * rng :=
  let (u, g') := random g in ((a + (b - a) * u)%Q, g').

(** ** config.py *)

Module Config.
Local Open Scope Q_scope.

Inductive component : Type := cpu | gpu | ssd | motherboard.
Inductive fan : Type := cpu_fan | gpu_fan | case_fan.

Definition CLIENT_ID : string := "GamingPC4".

Definition COMPONENT_IDLE_TEMPS (c : component) : Q :=
  match c with
  | cpu => 42.0
  | gpu => 38.0
  | ssd => 35.0
  | motherboard => 33.0
  end.

Definition COMPONENT_MAX_TEMPS (c : component) : Q :=
  match c with
  | cpu => 88.0
  | gpu => 85.0
  | ssd => 70.0
  | motherboard => 60.0
  end.

Definition FAN_IDLE_SPEEDS (f : fan) : Z :=
  match f with
  | cpu_fan => 1200
  | gpu_fan => 1000
  | case_fan => 800
  end.

Definition GAMING_SESSION_START_PROBABILITY : Q := 0.02.
Definition GAMING_WARMUP_TIME : Z := 30.
Definition GAMING_DURATION : Z := 120.
Definition GAMING_COOLDOWN_RATE : Q := 0.02.
End Config.

(** ** simulate_pc_metrics.py: class PCComponentSimulator *)

Module Simulator.
Import Py Config.
Local Open Scope Q_scope.

Record PCComponentSimulator : Type := {
  cpu_temp : Q;
  gpu_temp : Q;
  ssd_temp : Q;
  motherboard_temp : Q;
  cpu_fan_rpm : Q;
  gpu_fan_rpm : Q;
  case_fan_rpm : Q;
  gaming_session : bool;
  gaming_intensity : Q;
  session_time : Z;
  cooling_phase : bool;
  ambient_temp : Q
}.

(** [__init__] *)
Definition init : PCComponentSimulator := {|
  cpu_temp := COMPONENT_IDLE_TEMPS cpu;
  gpu_temp := COMPONENT_IDLE_TEMPS gpu;
  ssd_temp := COMPONENT_IDLE_TEMPS ssd;
  motherboard_temp := COMPONENT_IDLE_TEMPS motherboard;
  cpu_fan_rpm := inject_Z (FAN_IDLE_SPEEDS cpu_fan);
  gpu_fan_rpm := inject_Z (FAN_IDLE_SPEEDS gpu_fan);
  case_fan_rpm := inject_Z (FAN_IDLE_SPEEDS case_fan);
  gaming_session := false;
  gaming_intensity := 0.0;
  session_time := 0;
  cooling_phase := false;
  ambient_temp := 22.0
|}.

(** Assignments to the attributes of [self]. *)
Definition set_gaming (s : PCComponentSimulator)
    (active : bool) (intensity : Q) (age : Z) (cooling : bool)
  : PCComponentSimulator := {|
  cpu_temp := cpu_temp s;
  gpu_temp := gpu_temp s;
  ssd_temp := ssd_temp s;
  motherboard_temp := motherboard_temp s;
  cpu_fan_rpm := cpu_fan_rpm s;
  gpu_fan_rpm := gpu_fan_rpm s;
  case_fan_rpm := case_fan_rpm s;
  gaming_session := active;
  gaming_intensity := intensity;
  session_time := age;
  cooling_phase := cooling;
  ambient_temp := ambient_temp s
|}.

Definition set_gaming_session (s : PCComponentSimulator) (v : bool) :=
  set_gaming s v (gaming_intensity s) (session_time s) (cooling_phase s).
Definition set_gaming_intensity (s : PCComponentSimulator) (v : Q) :=
  set_gaming s (gaming_session s) v (session_time s) (cooling_phase s).
Definition set_session_time (s : PCComponentSimulator) (v : Z) :=
  set_gaming s (gaming_session s) (gaming_intensity s) v (cooling_phase s).
Definition set_cooling_phase (s : PCComponentSimulator) (v : bool) :=
  set_gaming s (gaming_session s) (gaming_intensity s) (session_time s) v.

Definition set_temps (s : PCComponentSimulator) (c g d m : Q)
  : PCComponentSimulator := {|
  cpu_temp := c;
  gpu_temp := g;
  ssd_temp := d;
  motherboard_temp := m;
  cpu_fan_rpm := cpu_fan_rpm s;
  gpu_fan_rpm := gpu_fan_rpm s;
  case_fan_rpm := case_fan_rpm s;
  gaming_session := gaming_session s;
  gaming_intensity := gaming_intensity s;
  session_time := session_time s;
  cooling_phase := cooling_phase s;
  ambient_temp := ambient_temp s
|}.

Definition set_fans (s : PCComponentSimulator) (c g k : Q)
  : PCComponentSimulator := {|
  cpu_temp := cpu_temp s;
  gpu_temp := gpu_temp s;
  ssd_temp := ssd_temp s;
  motherboard_temp := motherboard_temp s;
  cpu_fan_rpm := c;
  gpu_fan_rpm := g;
  case_fan_rpm := k;
  gaming_session := gaming_session s;
  gaming_intensity := gaming_intensity s;
  session_time := session_time s;
  cooling_phase := cooling_phase s;
  ambient_temp := ambient_temp s
|}.

Section WithRuntime.
Context `{PyRuntime}.

(** [update_gaming_session]: one step of the session state machine. *)
Definition update_gaming_session (s : PCComponentSimulator) (g : rng)
  : PCComponentSimulator * rng :=
  if negb (gaming_session s) then
    let (u, g1) := random g in
    if Qltb u GAMING_SESSION_START_PROBABILITY then
      (set_gaming_intensity
         (set_cooling_phase
            (set_session_time (set_gaming_session s true) 0) false) 0.1,
       g1)
    else (s, g1)
  else
    let s1 := set_session_time s (session_time s + 1) in
    if negb (cooling_phase s1) then
      if (session_time s1 <=? GAMING_WARMUP_TIME)%Z then
        let target_intensity :=
          (inject_Z (session_time s1) / inject_Z GAMING_WARMUP_TIME) * 0.7 in
        let (jitter, g1) := uniform (-0.1) 0.1 g in
        (set_gaming_intensity s1 (py_min 0.9 (target_intensity + jitter)), g1)
      else if (session_time s1 <=? GAMING_WARMUP_TIME + GAMING_DURATION)%Z then
        let base_intensity :=
          0.75 + 0.2 * sin (inject_Z (session_time s1) * 0.05) in
        let scene_variation :=
          0.15 * sin (inject_Z (session_time s1) * 0.3) in
        let (random_spikes, g1) := uniform (-0.1) 0.15 g in
        (set_gaming_intensity s1
           (py_max 0.5
              (py_min 1.0 (base_intensity + scene_variation + random_spikes))),
         g1)
      else
        (set_cooling_phase s1 true, g)
    else
      let s2 :=
        set_gaming_intensity s1
          (py_max 0 (gaming_intensity s1 - GAMING_COOLDOWN_RATE)) in
      if Qleb (gaming_intensity s2) 0 then
        (set_session_time (set_gaming_session s2 false) 0, g)
      else
        (s2, g).

(** [simulate_temperature_changes]; [now] is what [time.time()]
    returns in its first line. *)
Definition simulate_temperature_changes (now : Q)
    (s : PCComponentSimulator) (g : rng) : PCComponentSimulator * rng :=
  let time_factor := now * 0.0001 in
  let ambient_variation := 2.0 * sin time_factor in
  let current_ambient := ambient_temp s + ambient_variation in
  let cpu_gaming_load := gaming_intensity s * 35.0 in
  let gpu_gaming_load := gaming_intensity s * 40.0 in
  let ssd_gaming_load := gaming_intensity s * 15.0 in
  let motherboard_load := gaming_intensity s * 12.0 in
  let cpu_target :=
    COMPONENT_IDLE_TEMPS cpu + cpu_gaming_load + (current_ambient - 22) in
  let cpu_change_rate := if gaming_session s then 0.12 else 0.08 in
  let (n1, g1) := uniform (-1.2) 1.2 g in
  let cpu_delta := (cpu_target - cpu_temp s) * cpu_change_rate + n1 in
  let cpu' :=
    py_max 25.0 (py_min (COMPONENT_MAX_TEMPS cpu) (cpu_temp s + cpu_delta)) in
  let gpu_target :=
    COMPONENT_IDLE_TEMPS gpu + gpu_gaming_load + (current_ambient - 22) in
  let gpu_change_rate := if gaming_session s then 0.10 else 0.06 in
  let (n2, g2) := uniform (-1.5) 1.8 g1 in
  let gpu_delta := (gpu_target - gpu_temp s) * gpu_change_rate + n2 in
  let gpu' :=
    py_max 25.0 (py_min (COMPONENT_MAX_TEMPS gpu) (gpu_temp s + gpu_delta)) in
  let ssd_target :=
    COMPONENT_IDLE_TEMPS ssd + ssd_gaming_load + (current_ambient - 22) in
  let ssd_change_rate := 0.06 in
  let (n3, g3) := uniform (-0.6) 0.6 g2 in
  let ssd_delta := (ssd_target - ssd_temp s) * ssd_change_rate + n3 in
  let ssd' :=
    py_max 20.0 (py_min (COMPONENT_MAX_TEMPS ssd) (ssd_temp s + ssd_delta)) in
  let mb_target :=
    COMPONENT_IDLE_TEMPS motherboard + motherboard_load
    + (current_ambient - 22) in
  let mb_change_rate := 0.05 in
  let (n4, g4) := uniform (-0.4) 0.4 g3 in
  let mb_delta := (mb_target - motherboard_temp s) * mb_change_rate + n4 in
  let mb' :=
    py_max 20.0
      (py_min (COMPONENT_MAX_TEMPS motherboard) (motherboard_temp s + mb_delta)) in
  (set_temps s cpu' gpu' ssd' mb', g4).

(** The three piecewise-linear target curves of [calculate_fan_speeds]. *)
Definition cpu_fan_target (t : Q) : Q :=
  if Qltb t 45 then 800 + (t - 40) * 60
  else if Qltb t 65 then 1100 + (t - 45) * 85
  else if Qltb t 80 then 2800 + (t - 65) * 120
  else 4600 + (t - 80) * 50.

Definition gpu_fan_target (t : Q) : Q :=
  if Qltb t 40 then py_max 0 (600 + (t - 35) * 80)
  else if Qltb t 60 then 1200 + (t - 40) * 70
  else if Qltb t 75 then 2600 + (t - 60) * 90
  else 3950 + (t - 75) * 60.

Definition case_fan_target (avg_temp : Q) : Q :=
  if Qltb avg_temp 45 then 400 + (avg_temp - 35) * 25
  else if Qltb avg_temp 65 then 650 + (avg_temp - 45) * 40
  else 1450 + (avg_temp - 65) * 55.

(** [calculate_fan_speeds] *)
Definition calculate_fan_speeds (s : PCComponentSimulator) (g : rng)
  : PCComponentSimulator * rng :=
  let avg_temp := (cpu_temp s + gpu_temp s) / 2 in
  let fan_response_rate := 0.15 in
  let c1 :=
    cpu_fan_rpm s + (cpu_fan_target (cpu_temp s) - cpu_fan_rpm s) * fan_response_rate in
  let g1 :=
    gpu_fan_rpm s + (gpu_fan_target (gpu_temp s) - gpu_fan_rpm s) * fan_response_rate in
  let k1 :=
    case_fan_rpm s + (case_fan_target avg_temp - case_fan_rpm s) * fan_response_rate in
  let (j1, r1) := randint (-25) 25 g in
  let (j2, r2) := randint (-20) 20 r1 in
  let (j3, r3) := randint (-15) 15 r2 in
  let c2 := c1 + inject_Z j1 in
  let g2 := g1 + inject_Z j2 in
  let k2 := k1 + inject_Z j3 in
  (set_fans s (py_max 0 (py_min 4800 c2))
              (py_max 0 (py_min 4200 g2))
              (py_max 0 (py_min 2800 k2)),
   r3).
End WithRuntime.

(** The dictionary [get_sensor_data] builds. *)
Record SensorReading : Type := {
  r_timestamp : Z;
  r_device_id : string;
  r_cpu_temp : Q;
  r_gpu_temp : Q;
  r_ssd_temp : Q;
  r_motherboard_temp : Q;
  r_cpu_fan_rpm : Z;
  r_gpu_fan_rpm : Z;
  r_case_fan_rpm : Z;
  r_gaming_session : bool;
  r_gaming_intensity : Q
}.

(** [get_sensor_data]; [now] is what [time.time()] returns there. *)
Definition get_sensor_data (now : Q) (s : PCComponentSimulator)
  : SensorReading := {|
  r_timestamp := py_int now;
  r_device_id := CLIENT_ID;
  r_cpu_temp := py_round (cpu_temp s) 1;
  r_gpu_temp := py_round (gpu_temp s) 1;
  r_ssd_temp := py_round (ssd_temp s) 1;
  r_motherboard_temp := py_round (motherboard_temp s) 1;
  r_cpu_fan_rpm := py_int (cpu_fan_rpm s);
  r_gpu_fan_rpm := py_int (gpu_fan_rpm s);
  r_case_fan_rpm := py_int (case_fan_rpm s);
  r_gaming_session := gaming_session s;
  r_gaming_intensity := py_round (gaming_intensity s) 2
|}.

Section Driver.
Context `{PyRuntime}.

(** The three state updates at the head of the loop body of [main];
    [now] is the reading of [time.time()] taken by
    [simulate_temperature_changes]. *)
Definition tick (now : Q) (s : PCComponentSimulator) (g : rng)
  : PCComponentSimulator * rng :=
  let (s1, g1) := update_gaming_session s g in
  let (s2, g2) := simulate_temperature_changes now s1 g1 in
  calculate_fan_speeds s2 g2.

(** [n] iterations of the [while True] loop of [main], started when
    [time.time()] has been called [calls] times: iteration [i] reads
    the clock twice, once in [simulate_temperature_changes] and once
    in [get_sensor_data].  The result is the list of readings handed
    to the sinks, and the final state. *)
Fixpoint main_loop (n : nat) (clock : nat -> Q) (calls : nat)
    (s : PCComponentSimulator) (g : rng)
  : list SensorReading * (PCComponentSimulator * rng) :=
  match n with
  | O => ([], (s, g))
  | S n' =>
      let (s', g') := tick (clock calls) s g in
      let sensor_data := get_sensor_data (clock (S calls)) s' in
      let (rest, final) := main_loop n' clock (S (S calls)) s' g' in
      (sensor_data :: rest, final)
  end.

(** States the loop can be in at the head of an iteration. *)
Inductive reachable : PCComponentSimulator -> Prop :=
| reachable_init : reachable init
| reachable_tick now s g :
    reachable s -> reachable (fst (tick now s g)).
End Driver.
End Simulator.

(** ** Strings and decoded JSON values *)

Module Str.
Local Open Scope char_scope.

(** The ASCII characters [str.strip()] removes. *)
Definition py_isspace (c : ascii) : bool :=
  match c with
  | " " | "009" | "010" | "011" | "012" | "013"
  | "028" | "029" | "030" | "031" => true
  | _ => false
  end.

Fixpoint lstrip (s : string) : string :=
  match s with
  | String c r => if py_isspace c then lstrip r else s
  | EmptyString => s
  end.

Fixpoint rstrip (s : string) : string :=
  match s with
  | String c r =>
      match rstrip r with
      | EmptyString => if py_isspace c then EmptyString else String c EmptyString
      | r' => String c r'
      end
  | EmptyString => EmptyString
  end.

Definition strip (s : string) : string := rstrip (lstrip s).

Definition startswith (s : string) (c : ascii) : bool :=
  match s with
  | String c' _ => Ascii.eqb c' c
  | EmptyString => false
  end.

Fixpoint endswith (s : string) (c : ascii) : bool :=
  match s with
  | String c' EmptyString => Ascii.eqb c' c
  | String _ r => endswith r c
  | EmptyString => false
  end.

(** [s[:-1]] *)
Fixpoint drop_last (s : string) : string :=
  match s with
  | String _ EmptyString => EmptyString
  | String c r => String c (drop_last r)
  | EmptyString => EmptyString
  end.

(** [s.find(c)] and [s.rfind(c)]: an index, or [-1]. *)
Fixpoint find_from (c : ascii) (s : string) (i : Z) : Z :=
  match s with
  | String c' r => if Ascii.eqb c' c then i else find_from c r (i + 1)
  | EmptyString => -1
  end.

Definition find (s : string) (c : ascii) : Z := find_from c s 0.

Fixpoint rfind_from (c : ascii) (s : string) (i : Z) (found : Z) : Z :=
  match s with
  | String c' r => rfind_from c r (i + 1) (if Ascii.eqb c' c then i else found)
  | EmptyString => found
  end.

Definition rfind (s : string) (c : ascii) : Z := rfind_from c s 0 (-1).

(** [s[i:j]] for [0 <= i <= j]. *)
Definition slice (s : string) (i j : Z) : string :=
  substring (Z.to_nat i) (Z.to_nat (j - i)) s.

(** [s.split('\n')] *)
Fixpoint split_lines (s : string) : list string :=
  match s with
  | EmptyString => [EmptyString]
  | String c r =>
      if Ascii.eqb c "010" then EmptyString :: split_lines r
      else match split_lines r with
           | line :: rest => String c line :: rest
           | [] => [String c EmptyString]
           end
  end.

Definition nonempty (s : string) : bool :=
  match s with EmptyString => false | String _ _ => true end.
End Str.

Module Json.
Local Open Scope char_scope.

(** What [json.loads] returns: [None], [bool], a number, [str], [list],
    [dict] with string keys. *)
Inductive json : Type :=
| JNull
| JBool (b : bool)
| JNum (q : Q)
| JString (s : string)
| JArray (items : list json)
| JObject (members : gmap string json).

(** Truth value of a decoded value ([if v:], [not v]). *)
Definition truthy (v : json) : bool :=
  match v with
  | JNull => false
  | JBool b => b
  | JNum q => negb (Qeq_bool q 0)
  | JString s => Str.nonempty s
  | JArray items => match items with [] => false | _ => true end
  | JObject members => negb (bool_decide (members = ∅))
  end.

(** *** A reference decoder

    The grammar of RFC 8259 as the [json] module scans it: white space is
    skipped between tokens, an object keeps the last value of a repeated
    key, nothing but white space may follow the value.  Escapes [\uXXXX]
    are decoded for code points below 128 only, and the literals [NaN] and
    [Infinity] have no counterpart among the rationals; on these the
    decoder reports failure. *)

Definition is_ws (c : ascii) : bool :=
  match c with
  | " " | "009" | "010" | "013" => true
  | _ => false
  end.

Fixpoint skip_ws (s : string) : string :=
  match s with
  | String c r => if is_ws c then skip_ws r else s
  | EmptyString => s
  end.

Definition digit_of (c : ascii) : option Z :=
  let n := Z.of_N (N_of_ascii c) in
  if ((48 <=? n) && (n <=? 57))%Z then Some (n - 48)%Z else None.

Definition hex_of (c : ascii) : option Z :=
  let n := Z.of_N (N_of_ascii c) in
  if ((48 <=? n) && (n <=? 57))%Z then Some (n - 48)%Z
  else if ((65 <=? n) && (n <=? 70))%Z then Some (n - 55)%Z
  else if ((97 <=? n) && (n <=? 102))%Z then Some (n - 87)%Z
  else None.

Fixpoint read_digits (s : string) (acc : Z) (count : nat) : Z * nat * string :=
  match s with
  | String c r =>
      match digit_of c with
      | Some d => read_digits r (10 * acc + d)%Z (S count)
      | None => (acc, count, s)
      end
  | EmptyString => (acc, count, s)
  end.

(** The integer part: a single 0, or a non-zero digit and more digits. *)
Definition scan_int (s : string) : option (Z * string) :=
  match s with
  | String c r =>
      match digit_of c with
      | Some 0%Z => Some (0%Z, r)
      | Some d => let '(v, _, r') := read_digits r d 1 in Some (v, r')
      | None => None
      end
  | EmptyString => None
  end.

(** The optional fraction: a dot and at least one digit. *)
Definition scan_frac (s : string) : Q * string :=
  match s with
  | String "." r =>
      let '(v, n, r') := read_digits r 0 0 in
      match n with
      | O => (0%Q, s)
      | _ => ((inject_Z v / inject_Z (10 ^ Z.of_nat n))%Q, r')
      end
  | _ => (0%Q, s)
  end.

(** The optional exponent: e or E, an optional sign, at least one digit. *)
Definition scan_exp (s : string) : Z * string :=
  match s with
  | String ("e" | "E") r =>
      let '(sign, r1) :=
        match r with
        | String "-" r1 => ((-1)%Z, r1)
        | String "+" r1 => (1%Z, r1)
        | _ => (1%Z, r)
        end in
      let '(v, n, r2) := read_digits r1 0 0 in
      match n with
      | O => (0%Z, s)
      | _ => ((sign * v)%Z, r2)
      end
  | _ => (0%Z, s)
  end.

Definition scan_number (s : string) : option (Q * string) :=
  let '(negative, s1) :=
    match s with
    | String "-" r => (true, r)
    | _ => (false, s)
    end in
  match scan_int s1 with
  | None => None
  | Some (i, s2) =>
      let '(f, s3) := scan_frac s2 in
      let '(e, s4) := scan_exp s3 in
      let m := (inject_Z i + f)%Q in
      Some (((if negative then - m else m) * Qpower 10 e)%Q, s4)
  end.

Definition unescape (c : ascii) : option ascii :=
  match c with
  | "034" => Some "034"
  | "\" => Some "\"
  | "/" => Some "/"
  | "b" => Some "008"
  | "f" => Some "012"
  | "n" => Some "010"
  | "r" => Some "013"
  | "t" => Some "009"
  | _ => None
  end.

Definition code_point (h1 h2 h3 h4 : ascii) : option ascii :=
  match hex_of h1, hex_of h2, hex_of h3, hex_of h4 with
  | Some a, Some b, Some c, Some d =>
      let n := (((a * 16 + b) * 16 + c) * 16 + d)%Z in
      if (n <? 128)%Z then Some (ascii_of_N (Z.to_N n)) else None
  | _, _, _, _ => None
  end.

Definition cons_char (c : ascii) (p : option (string * string))
  : option (string * string) :=
  match p with
  | Some (str, rest) => Some (String c str, rest)
  | None => None
  end.

(** The text of a string literal, from just after its opening quote. *)
Fixpoint scan_string (s : string) : option (string * string) :=
  match s with
  | EmptyString => None
  | String "034" r => Some (EmptyString, r)
  | String "\" (String "u" (String h1 (String h2 (String h3 (String h4 r))))) =>
      match code_point h1 h2 h3 h4 with
      | Some c => cons_char c (scan_string r)
      | None => None
      end
  | String "\" (String e r) =>
      match unescape e with
      | Some c => cons_char c (scan_string r)
      | None => None
      end
  | String "\" EmptyString => None
  | String c r =>
      if (N_of_ascii c <? 32)%N then None else cons_char c (scan_string r)
  end.

Fixpoint strip_prefix (p s : string) : option string :=
  match p, s with
  | EmptyString, _ => Some s
  | String a p', String b s' => if Ascii.eqb a b then strip_prefix p' s' else None
  | String _ _, EmptyString => None
  end.

Definition literal (p : string) (v : json) (s : string) : option (json * string) :=
  match strip_prefix p s with
  | Some r => Some (v, r)
  | None => None
  end.

Fixpoint scan_value (fuel : nat) (s : string) : option (json * string) :=
  match fuel with
  | O => None
  | S fuel' =>
      match s with
      | String "034" r =>
          match scan_string r with
          | Some (str, r') => Some (JString str, r')
          | None => None
          end
      | String "{" r =>
          match skip_ws r with
          | String "}" r' => Some (JObject ∅, r')
          | r' => scan_members fuel' r' ∅
          end
      | String "[" r =>
          match skip_ws r with
          | String "]" r' => Some (JArray [], r')
          | r' => scan_items fuel' r' []
          end
      | String "n" _ => literal "null" JNull s
      | String "t" _ => literal "true" (JBool true) s
      | String "f" _ => literal "false" (JBool false) s
      | _ =>
          match scan_number s with
          | Some (q, r) => Some (JNum q, r)
          | None => None
          end
      end
  end
with scan_items (fuel : nat) (s : string) (acc : list json)
  : option (json * string) :=
  match fuel with
  | O => None
  | S fuel' =>
      match scan_value fuel' s with
      | None => None
      | Some (v, r) =>
          match skip_ws r with
          | String "]" r' => Some (JArray (rev (v :: acc)), r')
          | String "," r' => scan_items fuel' (skip_ws r') (v :: acc)
          | _ => None
          end
      end
  end
with scan_members (fuel : nat) (s : string) (acc : gmap string json)
  : option (json * string) :=
  match fuel with
  | O => None
  | S fuel' =>
      match s with
      | String "034" r =>
          match scan_string r with
          | None => None
          | Some (key, r1) =>
              match skip_ws r1 with
              | String ":" r2 =>
                  match scan_value fuel' (skip_ws r2) with
                  | None => None
                  | Some (v, r3) =>
                      match skip_ws r3 with
                      | String "}" r4 => Some (JObject (<[key := v]> acc), r4)
                      | String "," r4 =>
                          scan_members fuel' (skip_ws r4) (<[key := v]> acc)
                      | _ => None
                      end
                  end
              | _ => None
              end
          end
      | _ => None
      end
  end.

(** [json.loads(s)]; [None] stands for [json.JSONDecodeError]. *)
Definition loads (s : string) : option json :=
  match scan_value (2 * String.length s + 2) (skip_ws s) with
  | Some (v, r) =>
      match skip_ws r with
      | EmptyString => Some v
      | _ => None
      end
  | None => None
  end.
End Json.

(** ** claude_ai.py: class ClaudeAIOptimizer *)

Module Optimizer.
Import Py Json.
Local Open Scope Q_scope.

(** The dictionary [analyze_temperature_data] returns: empty, or the
    nested statistics. *)
Record temp_stats : Type := { avg : Q; max : Q; min : Q; std : Q }.
Record fan_stats : Type := { fan_avg : Q; fan_max : Q; fan_min : Q }.
Record fans_stats : Type := {
  cpu_fan : fan_stats;
  gpu_fan : fan_stats;
  case_fan : fan_stats
}.
Record gaming_stats : Type := {
  sessions : Z;
  avg_intensity : Q;
  gaming_percentage : Q
}.
Record summary : Type := {
  cpu : temp_stats;
  gpu : temp_stats;
  ssd : temp_stats;
  motherboard : temp_stats;
  fans : fans_stats;
  gaming : gaming_stats;
  data_points : Z;
  time_span_hours : Q
}.

Inductive analysis : Type :=
| EmptyAnalysis
| Summary (s : summary).

(** [d.get(key, default)] on a decoded object. *)
Definition get (d : gmap string json) (key : string) (fallback : json) : json :=
  default fallback (d !! key).

(** [v.get] exists on dictionaries only. *)
Definition as_dict (v : json) : result (gmap string json) :=
  match v with
  | JObject d => Ok d
  | _ => Raise AttributeError
  end.

(** Arithmetic accepts numbers ([bool] is a subtype of [int]). *)
Definition as_number (v : json) : result Q :=
  match v with
  | JNum q => Ok q
  | JBool b => Ok (if b then 1 else 0)
  | _ => Raise TypeError
  end.

(** [[d.get(key, 0) for d in sensor_data]], then used as numbers. *)
Definition column (key : string) (dicts : list (gmap string json)) : result (list Q) :=
  mapM (fun d => as_number (get d key (JNum 0))) dicts.

(** [d[key]] on a dictionary of this program. *)
Definition getitem {V : Type} (d : gmap string V) (key : string) : result V :=
  match d !! key with
  | Some v => Ok v
  | None => Raise (KeyError key)
  end.

(** [v[key]] and [v[0]] on a decoded value. *)
Definition subscript (v : json) (key : string) : result json :=
  match v with
  | JObject d => getitem d key
  | _ => Raise TypeError
  end.

Definition first_item (v : json) : result json :=
  match v with
  | JArray (x :: _) => Ok x
  | JArray [] => Raise IndexError
  | JString (String c _) => Ok (JString (String c EmptyString))
  | JString EmptyString => Raise IndexError
  | JObject _ => Raise (KeyError "0")
  | _ => Raise TypeError
  end.

Section WithRuntime.
Context `{PyRuntime}.

(** [_calculate_std] *)
Definition _calculate_std (values : list Q) : Q :=
  match values with
  | [] => 0
  | _ =>
      let mean := py_sum values / len values in
      let variance :=
        py_sum (map (fun x => (x - mean) ^ 2) values) / len values in
      pow_half variance
  end.

(** [_calculate_time_span] *)
Definition _calculate_time_span (dicts : list (gmap string json)) : result Q :=
  if (Z.of_nat (length dicts) <? 2)%Z then Ok 0
  else
    timestamps ← column "timestamp" dicts;
    hi ← py_max_list timestamps;
    lo ← py_min_list timestamps;
    Ok ((hi - lo) / 3600).

Definition temp_summary (values : list Q) : result temp_stats :=
  hi ← py_max_list values;
  lo ← py_min_list values;
  Ok {| avg := py_sum values / len values;
        max := hi;
        min := lo;
        std := _calculate_std values |}.

Definition fan_summary (values : list Q) : result fan_stats :=
  hi ← py_max_list values;
  lo ← py_min_list values;
  Ok {| fan_avg := py_sum values / len values; fan_max := hi; fan_min := lo |}.

(** [analyze_temperature_data].  Every list comprehension calls [d.get]
    on every element before any arithmetic is done, so an element that is
    not a dictionary is met first. *)
Definition analyze_temperature_data (sensor_data : list json) : result analysis :=
  match sensor_data with
  | [] => Ok EmptyAnalysis
  | _ =>
      dicts ← mapM as_dict sensor_data;
      cpu_temps ← column "cpu_temp" dicts;
      gpu_temps ← column "gpu_temp" dicts;
      ssd_temps ← column "ssd_temp" dicts;
      mb_temps ← column "motherboard_temp" dicts;
      cpu_fan_rpms ← column "cpu_fan_rpm" dicts;
      gpu_fan_rpms ← column "gpu_fan_rpm" dicts;
      case_fan_rpms ← column "case_fan_rpm" dicts;
      let gaming_sessions :=
        Z.of_nat
          (length
             (filter (fun d => truthy (get d "gaming_session" (JBool false)) = true)
                     dicts)) in
      intensities ← column "gaming_intensity" dicts;
      let gaming_intensity_avg := py_sum intensities / len sensor_data in
      cpu_stats ← temp_summary cpu_temps;
      gpu_stats ← temp_summary gpu_temps;
      ssd_stats ← temp_summary ssd_temps;
      mb_stats ← temp_summary mb_temps;
      cpu_fan_stats ← fan_summary cpu_fan_rpms;
      gpu_fan_stats ← fan_summary gpu_fan_rpms;
      case_fan_stats ← fan_summary case_fan_rpms;
      span ← _calculate_time_span dicts;
      Ok (Summary {|
        cpu := cpu_stats;
        gpu := gpu_stats;
        ssd := ssd_stats;
        motherboard := mb_stats;
        fans := {| cpu_fan := cpu_fan_stats;
                   gpu_fan := gpu_fan_stats;
                   case_fan := case_fan_stats |};
        gaming := {| sessions := gaming_sessions;
                     avg_intensity := gaming_intensity_avg;
                     gaming_percentage :=
                       (inject_Z gaming_sessions / len sensor_data) * 100 |};
        data_points := Z.of_nat (length sensor_data);
        time_span_hours := span
      |})
  end.
End WithRuntime.

(** [analysis.get('cpu', {}).get('avg', 0)] and its siblings. *)
Definition get_cpu_avg (a : analysis) : Q :=
  match a with Summary s => avg (cpu s) | EmptyAnalysis => 0 end.
Definition get_gpu_avg (a : analysis) : Q :=
  match a with Summary s => avg (gpu s) | EmptyAnalysis => 0 end.
Definition get_gpu_max (a : analysis) : Q :=
  match a with Summary s => max (gpu s) | EmptyAnalysis => 0 end.
Definition get_avg_intensity (a : analysis) : Q :=
  match a with Summary s => avg_intensity (gaming s) | EmptyAnalysis => 0 end.
Definition get_gaming_percentage (a : analysis) : Q :=
  match a with Summary s => gaming_percentage (gaming s) | EmptyAnalysis => 0 end.

(** The table [base_curves] of [_generate_simulated_curves]. *)
Definition base_curves : gmap string (gmap string (list Z)) :=
  {[ "best_temps" :=
       {[ "cpu_fan" := [800; 1400; 2200; 3600; 4500];
          "gpu_fan" := [0; 1200; 2400; 3900; 4200];
          "case_fan" := [600; 1000; 1600; 2400; 2800] ]};
     "most_quiet" :=
       {[ "cpu_fan" := [600; 1000; 1600; 2400; 3200];
          "gpu_fan" := [0; 800; 1800; 3000; 3400];
          "case_fan" := [400; 700; 1200; 1800; 2200] ]};
     "balanced" :=
       {[ "cpu_fan" := [700; 1200; 1900; 3000; 3800];
          "gpu_fan" := [0; 1000; 2100; 3400; 3800];
          "case_fan" := [500; 850; 1400; 2100; 2500] ]} ]}%Z.

(** The three texts under ['recommendations']: the number each one
    prints and the verdict appended to it. *)
Record local_notes : Type := {
  cpu_note : Q * string;
  gpu_note : Q * string;
  gaming_note : Q * string
}.

Record remote_notes : Type := {
  efficiency : json;
  recommendations : json;
  temperature_improvement : json;
  noise_impact : json
}.

(** The dictionary a recommendation is; the constructor is the value of
    ['ai_generated']. *)
Inductive recommendation : Type :=
| Simulated (preference : string) (fan_curves : gmap string (list Z))
    (echo : analysis) (notes : local_notes) (timestamp : string)
| AiGenerated (preference : string) (fan_curves : json)
    (echo : analysis) (claude_analysis : json) (notes : remote_notes)
    (timestamp : string).

(** [[rpm + k for rpm in curves[fan]]] stored back under [fan]. *)
Definition raise_curve (curves : gmap string (list Z)) (fan : string) (k : Z)
  : result (gmap string (list Z)) :=
  setpoints ← getitem curves fan;
  Ok (<[fan := map (fun rpm => (rpm + k)%Z) setpoints]> curves).

(** What [requests.post] does: it raises, or it returns a response. *)
Inductive http_outcome : Type :=
| RequestFailed (e : exn)
| Response (status_code : Z) (body : string).

(** The prompt is kept as the two values interpolated into its text. *)
Record prompt : Type := { prompt_summary : summary; prompt_preference : string }.

Record request : Type := {
  x_api_key : option string;
  request_model : string;
  max_tokens : Z;
  content : prompt
}.

Record ClaudeAIOptimizer : Type := {
  api_key : option string;
  model : string;
  use_simulation : bool
}.

(** [__init__]; [env_key] is [os.getenv('CLAUDE_API_KEY')]. *)
Definition is_set (key : option string) : bool :=
  match key with
  | Some k => Str.nonempty k
  | None => false
  end.

Definition new (key env_key : option string) : ClaudeAIOptimizer :=
  let chosen := if is_set key then key else env_key in
  {| api_key := chosen;
     model := "claude-3-sonnet-20240229";
     use_simulation := negb (is_set chosen) |}.

Section WithEnvironment.
Variable json_loads : string -> option json.
Variable requests_post : request -> http_outcome.
Variable now : string.

(** [_generate_simulated_curves] *)
Definition _generate_simulated_curves (a : analysis) (preference : string)
  : result recommendation :=
  curves ← getitem base_curves preference;
  curves ← (if Qltb 70 (get_cpu_avg a) then raise_curve curves "cpu_fan" 200
            else Ok curves);
  curves ← (if Qltb 75 (get_gpu_avg a) then raise_curve curves "gpu_fan" 200
            else Ok curves);
  curves ← (if Qltb 0.7 (get_avg_intensity a) then raise_curve curves "case_fan" 150
            else Ok curves);
  Ok (Simulated preference curves a
        {| cpu_note :=
             (get_cpu_avg a,
              if Qltb 70 (get_cpu_avg a) then "aggressive cooling recommended"
              else "current cooling adequate");
           gpu_note :=
             (get_gpu_max a,
              if Qltb 80 (get_gpu_max a) then "enhanced cooling suggested"
              else "cooling performance good");
           gaming_note :=
             (get_gaming_percentage a,
              if Qltb 30 (get_gaming_percentage a)
              then "optimized for gaming workloads"
              else "general usage optimization") |}
        now).

(** [_build_claude_prompt]: the text reads [analysis['cpu']['avg']]. *)
Definition _build_claude_prompt (a : analysis) (preference : string)
  : result prompt :=
  match a with
  | Summary s => Ok {| prompt_summary := s; prompt_preference := preference |}
  | EmptyAnalysis => Raise (KeyError "cpu")
  end.

(** [_parse_claude_response]; [response] is whatever sat under
    [result['content'][0]['text']]. *)
Definition _parse_claude_response (response : json) (a : analysis)
    (preference : string) : result recommendation :=
  try_except
    (match response with
     | JString text =>
         let json_start := Str.find text "{" in
         let json_end := (Str.rfind text "}" + 1)%Z in
         if negb (json_start =? -1)%Z && (json_start <? json_end)%Z then
           let json_str := Str.slice text json_start json_end in
           match json_loads json_str with
           | None => Raise JSONDecodeError
           | Some claude_data =>
               d ← as_dict claude_data;
               let fan_curves := get d "fan_curves" (JObject ∅) in
               let claude_analysis := get d "analysis" (JObject ∅) in
               n ← as_dict claude_analysis;
               Ok (AiGenerated preference fan_curves a claude_analysis
                     {| efficiency :=
                          get n "efficiency" (JString "Analysis complete");
                        recommendations :=
                          get n "recommendations" (JString "Optimized for your usage");
                        temperature_improvement :=
                          get n "temperature_improvement"
                              (JString "Improved cooling expected");
                        noise_impact :=
                          get n "noise_impact" (JString "Balanced noise levels") |}
                     now)
           end
         else Raise (ValueError "No valid JSON found in response")
     | _ => Raise AttributeError
     end)
    (fun _ => _generate_simulated_curves a preference).

(** [_generate_claude_curves] *)
Definition _generate_claude_curves (self : ClaudeAIOptimizer) (a : analysis)
    (preference : string) : result recommendation :=
  try_except
    (p ← _build_claude_prompt a preference;
     match requests_post {| x_api_key := api_key self;
                            request_model := model self;
                            max_tokens := 1000;
                            content := p |} with
     | RequestFailed e => Raise e
     | Response status_code body =>
         if (status_code =? 200)%Z then
           match json_loads body with
           | None => Raise JSONDecodeError
           | Some result =>
               blocks ← subscript result "content";
               block ← first_item blocks;
               claude_response ← subscript block "text";
               _parse_claude_response claude_response a preference
           end
         else _generate_simulated_curves a preference
     end)
    (fun _ => _generate_simulated_curves a preference).

(** [generate_fan_curves] *)
Definition generate_fan_curves (self : ClaudeAIOptimizer) (a : analysis)
    (preference : string) : result recommendation :=
  if use_simulation self then _generate_simulated_curves a preference
  else _generate_claude_curves self a preference.
End WithEnvironment.
End Optimizer.

(** ** app.py: the log reader and the recommendation entry point *)

Module Dashboard.
Import Py Json.

(** What opening and reading [LOCAL_LOG_FILE] does. *)
Inductive read_outcome : Type :=
| FileNotFoundError
| ReadError
| Content (text : string).

(** The module-level variables the two functions assign. *)
Record state : Type := {
  sensor_history : list json;
  current_sensor_data : json;
  ai_recommendations : option Optimizer.recommendation
}.

Definition set_history (st : state) (history : list json) (current : json) : state :=
  {| sensor_history := history;
     current_sensor_data := current;
     ai_recommendations := ai_recommendations st |}.

(** [sensor_history = []; current_sensor_data = {}] *)
Definition cleared (st : state) : state := set_history st [] (JObject ∅).

Definition newline : string := String "010"%char EmptyString.

Section WithDecoder.
Variable json_loads : string -> option json.

(** [load_sensor_data_fallback]; it opens the file again. *)
Definition fallback_line (line : string) : list json :=
  let line := Str.strip line in
  if Str.startswith line "{" && Str.endswith line "}" then
    match json_loads line with
    | Some obj => [obj]
    | None => []
    end
  else if Str.startswith line "{" && Str.endswith line "," then
    match json_loads (Str.drop_last line) with
    | Some obj => [obj]
    | None => []
    end
  else [].

Definition load_sensor_data_fallback (file : read_outcome) : list json :=
  match file with
  | Content content => flat_map fallback_line (Str.split_lines content)
  | _ => []
  end.

(** [load_sensor_data]; [file] is what the first [open]/[read] gives and
    [file_again] what the one in the fallback gives.  A decoder that
    follows the JSON grammar yields a list for a text that ends in a
    closing bracket.  For a number, a boolean, [None] or a non-empty
    dictionary the statements after [json.loads] raise ([len], the slice
    or the index [-1]) and the last handler clears both variables; here
    they are cleared for every decoded value that is not a list. *)
Definition load_sensor_data (file file_again : read_outcome) (st : state) : state :=
  match file with
  | FileNotFoundError => cleared st
  | ReadError => cleared st
  | Content text =>
      let content := Str.strip text in
      let content :=
        if Str.nonempty content && negb (Str.endswith content "]") then
          let content :=
            if Str.endswith content "," then Str.drop_last content else content in
          (content ++ newline ++ "]")%string
        else content in
      let decoded :=
        if Str.nonempty content then json_loads content else Some (JArray []) in
      match decoded with
      | Some (JArray data) =>
          let history :=
            if (1000 <? Z.of_nat (length data))%Z then last_n 1000 data else data in
          set_history st history
            (match last history with
             | Some latest => latest
             | None => current_sensor_data st
             end)
      | Some _ => cleared st
      | None =>
          let history := load_sensor_data_fallback file_again in
          set_history st history
            (match last history with
             | Some latest => latest
             | None => JObject ∅
             end)
      end
  end.
End WithDecoder.

(** What [generate_ai_fan_curves] returns. *)
Inductive reply : Type :=
| ErrorReply (error : string)
| RecommendationReply (r : Optimizer.recommendation).

Section WithOptimizer.
Context `{PyRuntime}.
Variable json_loads : string -> option json.
Variable requests_post : Optimizer.request -> Optimizer.http_outcome.
Variable now : string.
Variable claude_optimizer : Optimizer.ClaudeAIOptimizer.

(** [generate_ai_fan_curves] *)
Definition generate_ai_fan_curves (preference : string)
    (sensor_data_sample : option (list json)) (st : state)
  : result (reply * state) :=
  let sample :=
    match sensor_data_sample with
    | Some (x :: rest) => x :: rest
    | _ =>
        if (100 <=? Z.of_nat (length (sensor_history st)))%Z
        then last_n 100 (sensor_history st)
        else sensor_history st
    end in
  match sample with
  | [] => Ok (ErrorReply "No data available for analysis", st)
  | _ =>
      a ← Optimizer.analyze_temperature_data sample;
      r ← Optimizer.generate_fan_curves json_loads requests_post now
             claude_optimizer a preference;
      Ok (RecommendationReply r,
          {| sensor_history := sensor_history st;
             current_sensor_data := current_sensor_data st;
             ai_recommendations := Some r |})
  end.
End WithOptimizer.
End Dashboard.

(** ** A scripted runtime

    A generator whose state is the list of the values [random.random()]
    is still to return; [randint] scales the next one.  It is used to run
    the definitions on chosen draws. *)

Definition scripted_random (g : list Q) : Q * list Q :=
  match g with
  | [] => (0%Q, [])
  | u :: g' => (u, g')
  end.

Definition scripted_randint (a b : Z) (g : list Q) : Z * list Q :=
  let (u, g') := scripted_random g in
  ((a + Qfloor (u * inject_Z (b - a + 1)))%Z, g').

(** A square root that is exact on squares of rationals. *)
Definition Qsqrt_exact (q : Q) : Q :=
  let r := Qred q in Z.sqrt (Qnum r) # Pos.sqrt (Qden r).

#[local] Instance scripted : PyRuntime := {|
  rng := list Q;
  random := scripted_random;
  randint := scripted_randint;
  sin := fun _ => 0%Q;
  pow_half := Qsqrt_exact
|}.

(** ** Bounds the simulator clamps to

    The lower temperature clamps are the literals of
    [simulate_temperature_changes]; the upper RPM clamps are those of
    [calculate_fan_speeds]. *)

Definition TEMP_FLOOR (c : Config.component) : Q :=
  match c with
  | Config.cpu | Config.gpu => 25.0
  | Config.ssd | Config.motherboard => 20.0
  end%Q.

Definition FAN_MAX_RPM (f : Config.fan) : Q :=
  match f with
  | Config.cpu_fan => 4800
  | Config.gpu_fan => 4200
  | Config.case_fan => 2800
  end%Q.

Definition temperature (s : Simulator.PCComponentSimulator) (c : Config.component) : Q :=
  match c with
  | Config.cpu => Simulator.cpu_temp s
  | Config.gpu => Simulator.gpu_temp s
  | Config.ssd => Simulator.ssd_temp s
  | Config.motherboard => Simulator.motherboard_temp s
  end.

Definition fan_rpm (s : Simulator.PCComponentSimulator) (f : Config.fan) : Q :=
  match f with
  | Config.cpu_fan => Simulator.cpu_fan_rpm s
  | Config.gpu_fan => Simulator.gpu_fan_rpm s
  | Config.case_fan => Simulator.case_fan_rpm s
  end.

(** The part of the state the session state machine owns. *)
Definition gaming_state (s : Simulator.PCComponentSimulator) : bool * Q * Z * bool :=
  (Simulator.gaming_session s, Simulator.gaming_intensity s,
   Simulator.session_time s, Simulator.cooling_phase s).

(** ** Vocabulary of the properties *)

(** The session is idle only with intensity zero. *)
Definition idle_zero (s : Simulator.PCComponentSimulator) : Prop :=
  Simulator.gaming_session s = false -> (Simulator.gaming_intensity s == 0)%Q.

(** The two fields of a reading that come from the session state machine. *)
Definition gaming_fields (r : Simulator.SensorReading) : bool * Q :=
  (Simulator.r_gaming_session r, Simulator.r_gaming_intensity r).

(** The dictionary [get_sensor_data] returns, key by key: what the log
    holds for a reading and what [json.loads] gives back for it. *)
Definition reading_dict (r : Simulator.SensorReading) : gmap string Json.json :=
  <["timestamp" := Json.JNum (inject_Z (Simulator.r_timestamp r))]>
  (<["device_id" := Json.JString (Simulator.r_device_id r)]>
  (<["cpu_temp" := Json.JNum (Simulator.r_cpu_temp r)]>
  (<["gpu_temp" := Json.JNum (Simulator.r_gpu_temp r)]>
  (<["ssd_temp" := Json.JNum (Simulator.r_ssd_temp r)]>
  (<["motherboard_temp" := Json.JNum (Simulator.r_motherboard_temp r)]>
  (<["cpu_fan_rpm" := Json.JNum (inject_Z (Simulator.r_cpu_fan_rpm r))]>
  (<["gpu_fan_rpm" := Json.JNum (inject_Z (Simulator.r_gpu_fan_rpm r))]>
  (<["case_fan_rpm" := Json.JNum (inject_Z (Simulator.r_case_fan_rpm r))]>
  (<["gaming_session" := Json.JBool (Simulator.r_gaming_session r)]>
  (<["gaming_intensity" := Json.JNum (Simulator.r_gaming_intensity r)]> ∅)))))))))).

Definition reading_json (r : Simulator.SensorReading) : Json.json :=
  Json.JObject (reading_dict r).

(** Mean and population variance of a sample, as statistics defines
    them: the squared deviations from the mean, summed and divided by the
    number of values.  The sample variance divides by one less. *)
Fixpoint total (xs : list Q) : Q :=
  match xs with
  | [] => 0
  | x :: rest => x + total rest
  end%Q.

Definition mean (xs : list Q) : Q :=
  (total xs / inject_Z (Z.of_nat (length xs)))%Q.

Definition squared_deviations (xs : list Q) : Q :=
  total (map (fun x => (x - mean xs) * (x - mean xs))%Q xs).

Definition population_variance (xs : list Q) : Q :=
  (squared_deviations xs / inject_Z (Z.of_nat (length xs)))%Q.

Definition sample_variance (xs : list Q) : Q :=
  (squared_deviations xs / inject_Z (Z.of_nat (length xs) - 1))%Q.

(** The preference tags and the fans of a recommendation. *)
Definition preferences : list string := ["balanced"; "best_temps"; "most_quiet"].
Definition fan_ids : list string := ["cpu_fan"; "gpu_fan"; "case_fan"].

(** Five set points, none negative. *)
Definition valid_setpoints (curve : list Z) : Prop :=
  length curve = 5%nat /\ Forall (fun rpm => (0 <= rpm)%Z) curve.

Definition valid_remote_setpoints (v : Json.json) : Prop :=
  exists items,
    v = Json.JArray items /\ length items = 5%nat
    /\ Forall (fun item => exists q, item = Json.JNum q /\ (0 <= q)%Q) items.

Definition valid_recommendation (r : Optimizer.recommendation) : Prop :=
  match r with
  | Optimizer.Simulated _ curves _ _ _ =>
      forall fan, In fan fan_ids ->
        exists curve, curves !! fan = Some curve /\ valid_setpoints curve
  | Optimizer.AiGenerated _ curves _ _ _ _ =>
      exists d, curves = Json.JObject d /\
        forall fan, In fan fan_ids ->
          exists v, d !! fan = Some v /\ valid_remote_setpoints v
  end.

(** [curve] lies at least [k] above [base], set point by set point. *)
Definition raised_by (k : Z) (curve base : list Z) : Prop :=
  Forall2 (fun rpm b => (b + k <= rpm)%Z) curve base.

(** A curve, raised by [k] when the threshold test [hot] holds. *)
Definition raised (hot : bool) (k : Z) (curve : list Z) : list Z :=
  if hot then map (fun rpm => (rpm + k)%Z) curve else curve.

(** The curve of [fan] in [curves] lies at least [k] above the one in
    [base]. *)
Definition fan_raised_by (k : Z) (fan : string) (curves base : gmap string (list Z))
  : Prop :=
  exists curve b,
    curves !! fan = Some curve /\ base !! fan = Some b /\ raised_by k curve b.

(** The text the answer of the advisory service carries, if the body
    decodes and has the shape [{"content": [{"text": ...}, ...]}]. *)
Definition advisory_text (json_loads : string -> option Json.json) (body : string)
  : option Json.json :=
  match json_loads body with
  | Some (Json.JObject envelope) =>
      match envelope !! "content" with
      | Some (Json.JArray (Json.JObject block :: _)) => block !! "text"
      | _ => None
      end
  | _ => None
  end.

(** The ways the remote advisory path fails: the transport raises, the
    status is not 200, the body does not decode to the expected shape, or
    no JSON object can be taken out of the text (no opening brace, no
    closing brace after it, or a span between them that does not decode
    to an object whose ["analysis"] member, if any, is an object). *)
Inductive remote_failure (json_loads : string -> option Json.json)
  : Optimizer.http_outcome -> Prop :=
| transport_error e :
    remote_failure json_loads (Optimizer.RequestFailed e)
| error_status status_code body :
    status_code <> 200%Z ->
    remote_failure json_loads (Optimizer.Response status_code body)
| malformed_body body :
    advisory_text json_loads body = None ->
    remote_failure json_loads (Optimizer.Response 200 body)
| text_not_a_string body v :
    advisory_text json_loads body = Some v ->
    (forall text, v <> Json.JString text) ->
    remote_failure json_loads (Optimizer.Response 200 body)
| no_braces body text :
    advisory_text json_loads body = Some (Json.JString text) ->
    (Str.find text "{" = (-1)%Z \/ (Str.rfind text "}" < Str.find text "{")%Z) ->
    remote_failure json_loads (Optimizer.Response 200 body)
| undecodable_span body text :
    advisory_text json_loads body = Some (Json.JString text) ->
    json_loads (Str.slice text (Str.find text "{") (Str.rfind text "}" + 1)) = None ->
    remote_failure json_loads (Optimizer.Response 200 body)
| span_not_an_object body text v :
    advisory_text json_loads body = Some (Json.JString text) ->
    json_loads (Str.slice text (Str.find text "{") (Str.rfind text "}" + 1)) = Some v ->
    (forall d, v <> Json.JObject d) ->
    remote_failure json_loads (Optimizer.Response 200 body)
| notes_not_an_object body text d v :
    advisory_text json_loads body = Some (Json.JString text) ->
    json_loads (Str.slice text (Str.find text "{") (Str.rfind text "}" + 1))
    = Some (Json.JObject d) ->
    d !! "analysis" = Some v ->
    (forall n, v <> Json.JObject n) ->
    remote_failure json_loads (Optimizer.Response 200 body).

(** ** Inputs the properties are run on *)

Definition double_quote : string := String "034"%char EmptyString.

(** The text of a log cut off after the comma that follows its second
    record. *)
Definition truncated_log : string :=
  ("[{" ++ double_quote ++ "a" ++ double_quote ++ ":1},{"
        ++ double_quote ++ "b" ++ double_quote ++ ":2},")%string.

Definition empty_state : Dashboard.state := {|
  Dashboard.sensor_history := [];
  Dashboard.current_sensor_data := Json.JObject ∅;
  Dashboard.ai_recommendations := None
|}.

(** A generator state: the first draw starts a session, the next seven
    feed the temperature noise and the fan jitter of that tick, the ninth
    is the warm-up jitter of the following tick. *)
Definition warmup_seed : list Q := [0.01; 0; 0; 0; 0; 0; 0; 0; 0.25]%Q.

(** Clocks: one that stands still, one that agrees with it on the first
    four readings only. *)
Definition fixed_clock (t : Q) : nat -> Q := fun _ => t.
Definition drifting_clock (k : nat) : Q :=
  if (k <? 4)%nat then 1750263292%Q else 1750263299%Q.

(** A reading with the CPU at 80 degrees during a gaming session. *)
Definition hot_reading : Simulator.SensorReading := {|
  Simulator.r_timestamp := 1750263292;
  Simulator.r_device_id := Config.CLIENT_ID;
  Simulator.r_cpu_temp := 80;
  Simulator.r_gpu_temp := 60;
  Simulator.r_ssd_temp := 40;
  Simulator.r_motherboard_temp := 38;
  Simulator.r_cpu_fan_rpm := 3000;
  Simulator.r_gpu_fan_rpm := 2600;
  Simulator.r_case_fan_rpm := 1500;
  Simulator.r_gaming_session := true;
  Simulator.r_gaming_intensity := 0.6
|}.

(** An advisory service that is down. *)
Definition unreachable_service (_ : Optimizer.request) : Optimizer.http_outcome :=
  Optimizer.RequestFailed Py.RequestException.


(** ** Further vocabulary: the simulator *)

(** A runtime whose generator keeps to the ranges the [random] module
    documents: [random()] in [[0, 1)], [randint(a, b)] in [[a, b]]. *)
Definition in_range (rt : PyRuntime) : Prop :=
  (forall g, (0 <= fst (random g) < 1)%Q)
  /\ (forall a b g, (a <= b)%Z -> (a <= fst (randint a b g) <= b)%Z).

(** A generator that counts: its n-th draw is [(n mod 100) / 100], its
    n-th integer in [[a, b]] is [a + n mod (b - a + 1)]. *)
Definition counter_random (n : nat) : Q * nat :=
  ((inject_Z (Z.of_nat n mod 100) / 100)%Q, S n).

Definition counter_randint (a b : Z) (n : nat) : Z * nat :=
  ((a + Z.of_nat n mod (b - a + 1))%Z, S n).

#[local] Instance counter : PyRuntime := {|
  rng := nat;
  random := counter_random;
  randint := counter_randint;
  sin := fun _ => 0%Q;
  pow_half := Qsqrt_exact
|}.

(** What the session state machine keeps true, phase by phase; 30, 150
    and 151 are GAMING_WARMUP_TIME, GAMING_WARMUP_TIME + GAMING_DURATION
    and the tick after, 0.02 is GAMING_COOLDOWN_RATE. *)
Definition session_inv (s : Simulator.PCComponentSimulator) : Prop :=
  if Simulator.gaming_session s then
    if Simulator.cooling_phase s then
      (151 <= Simulator.session_time s <= 200)%Z
      /\ (0 < Simulator.gaming_intensity s)%Q
      /\ (Simulator.gaming_intensity s
          <= 1 - 0.02 * inject_Z (Simulator.session_time s - 151))%Q
    else
      (0 <= Simulator.session_time s <= 150)%Z
      /\ (Simulator.gaming_intensity s <= 1)%Q
      /\ ((31 <= Simulator.session_time s)%Z ->
          (0.5 <= Simulator.gaming_intensity s)%Q)
  else
    Simulator.session_time s = 0%Z /\ (Simulator.gaming_intensity s == 0)%Q.

(** [max(lo, min(hi, x))] *)
Definition clamp (lo hi x : Q) : Q := Py.py_max lo (Py.py_min hi x).

(** The fan speed after the exponential step toward the target, before
    the jitter is added. *)
Definition approach (rpm target : Q) : Q := (rpm + (target - rpm) * 0.15)%Q.

Definition fan_target (s : Simulator.PCComponentSimulator) (f : Config.fan) : Q :=
  match f with
  | Config.cpu_fan => Simulator.cpu_fan_target (Simulator.cpu_temp s)
  | Config.gpu_fan => Simulator.gpu_fan_target (Simulator.gpu_temp s)
  | Config.case_fan =>
      Simulator.case_fan_target
        ((Simulator.cpu_temp s + Simulator.gpu_temp s) / 2)%Q
  end.

(** The bounds of the three [random.randint] calls of
    [calculate_fan_speeds]. *)
Definition FAN_JITTER (f : Config.fan) : Z :=
  match f with
  | Config.cpu_fan => 25
  | Config.gpu_fan => 20
  | Config.case_fan => 15
  end.

Definition reading_temperature (r : Simulator.SensorReading) (c : Config.component) : Q :=
  match c with
  | Config.cpu => Simulator.r_cpu_temp r
  | Config.gpu => Simulator.r_gpu_temp r
  | Config.ssd => Simulator.r_ssd_temp r
  | Config.motherboard => Simulator.r_motherboard_temp r
  end.

Definition reading_fan_rpm (r : Simulator.SensorReading) (f : Config.fan) : Z :=
  match f with
  | Config.cpu_fan => Simulator.r_cpu_fan_rpm r
  | Config.gpu_fan => Simulator.r_gpu_fan_rpm r
  | Config.case_fan => Simulator.r_case_fan_rpm r
  end.

(** ** simulate_pc_metrics.py: the local log *)

Module LocalLog.
Import Simulator.


Definition newline : string := String "010"%char EmptyString.

(** The log file on disk is absent ([None]) or has a text; opening it for
    appending creates it empty. *)
Definition text_of (disk : option string) : string := default EmptyString disk.

(** [s.replace('\n', '\n  ')] *)
Fixpoint indent_lines (s : string) : string :=
  match s with
  | EmptyString => EmptyString
  | String c r =>
      if Ascii.eqb c "010" then String c ("  " ++ indent_lines r)
      else String c (indent_lines r)
  end%string.


Section WithEncoder.
(** [json.dumps(sensor_data, indent=2)], for whatever the caller passes
    as [sensor_data]; [None] when it raises. *)
Context {A : Type}.
Variable json_dumps : A -> option string.

(** [log_data_locally]: the separator is written before the record is
    encoded, and the file is closed on the way out of the [with] block
    whether or not an exception passes. *)
Definition log_data_locally (can_open : bool) (sensor_data : A)
    (is_first_entry : bool) (disk : option string) : bool * option string :=
  if can_open then
    let text :=
      if is_first_entry then text_of disk
      else (text_of disk ++ "," ++ newline)%string in
    match json_dumps sensor_data with
    | Some dumped => (true, Some (text ++ "  " ++ indent_lines dumped)%string)
    | None => (false, Some text)
    end
  else (false, disk).

End WithEncoder.

(** [finalize_local_log] *)
Definition finalize_local_log (can_open : bool) (disk : option string)
  : option string :=
  if can_open then Some (text_of disk ++ newline ++ "]")%string else disk.
End LocalLog.

(** ** start_dashboard.py: check_requirements *)

Module StartDashboard.
Import Json.


Section WithDecoder.
Variable json_loads : string -> option json.

End WithDecoder.
End StartDashboard.

(** ** app.py: analyze_temperature_patterns *)

Module Patterns.
Import Py Json.
Local Open Scope Q_scope.

Record channel : Type := { avg : Q; max : Q; min : Q }.

(** The dictionary [analyze_temperature_patterns] returns: empty, or the
    three entries. *)
Inductive patterns : Type :=
| EmptyPatterns
| Patterns (cpu gpu : channel) (gaming_sessions : Z).

Definition channel_of (values : list Q) : result channel :=
  hi ← py_max_list values;
  lo ← py_min_list values;
  Ok {| avg := py_sum values / len values; max := hi; min := lo |}.

(** [analyze_temperature_patterns]: the temperatures are read with
    [d['cpu_temp']] and [d['gpu_temp']], the session flag with [d.get]. *)
Definition analyze_temperature_patterns (data : list json) : result patterns :=
  match data with
  | [] => Ok EmptyPatterns
  | _ =>
      cpu_values ← mapM (fun d => Optimizer.subscript d "cpu_temp") data;
      gpu_values ← mapM (fun d => Optimizer.subscript d "gpu_temp") data;
      dicts ← mapM Optimizer.as_dict data;
      let gaming_sessions :=
        Z.of_nat
          (length
             (filter
                (fun d => truthy (Optimizer.get d "gaming_session" (JBool false)) = true)
                dicts)) in
      cpu_temps ← mapM Optimizer.as_number cpu_values;
      cpu ← channel_of cpu_temps;
      gpu_temps ← mapM Optimizer.as_number gpu_values;
      gpu ← channel_of gpu_temps;
      Ok (Patterns cpu gpu gaming_sessions)
  end.

End Patterns.

(** ** Further vocabulary: the log and its reader *)

(** The text [load_sensor_data] and [check_requirements] hand to
    [json.loads]: the stripped content, closed with a bracket when it
    does not end in one, after dropping a trailing comma. *)
Definition repaired (text : string) : string :=
  let content := Str.strip text in
  if Str.nonempty content && negb (Str.endswith content "]") then
    ((if Str.endswith content "," then Str.drop_last content else content)
     ++ Dashboard.newline ++ "]")%string
  else content.



(** ** Further vocabulary: the aggregator *)




Definition is_dict (v : Json.json) : bool :=
  match v with
  | Json.JObject _ => true
  | _ => false
  end.

(** ** Further inputs *)

(** The body of an answer of the advisory service whose text is the
    empty JSON object. *)
Definition empty_answer_body : string :=
  ("{" ++ double_quote ++ "content" ++ double_quote ++ ": [{"
       ++ double_quote ++ "text" ++ double_quote ++ ": "
       ++ double_quote ++ "{}" ++ double_quote ++ "}]}")%string.

(** An advisory service that answers every request with status 200 and
    the given body. *)
Definition answering (body : string) (_ : Optimizer.request)
  : Optimizer.http_outcome :=
  Optimizer.Response 200 body.

(** A summary of one reading with every figure at zero. *)
Definition flat_summary : Optimizer.summary :=
  let t := {| Optimizer.avg := 0; Optimizer.max := 0; Optimizer.min := 0;
              Optimizer.std := 0 |} in
  let f := {| Optimizer.fan_avg := 0; Optimizer.fan_max := 0;
              Optimizer.fan_min := 0 |} in
  {| Optimizer.cpu := t; Optimizer.gpu := t; Optimizer.ssd := t;
     Optimizer.motherboard := t;
     Optimizer.fans := {| Optimizer.cpu_fan := f; Optimizer.gpu_fan := f;
                          Optimizer.case_fan := f |};
     Optimizer.gaming := {| Optimizer.sessions := 0; Optimizer.avg_intensity := 0;
                            Optimizer.gaming_percentage := 0 |};
     Optimizer.data_points := 1;
     Optimizer.time_span_hours := 0 |}.

(** A dashboard state with 101 entries in its history. *)
Definition long_history : Dashboard.state := {|
  Dashboard.sensor_history := Json.JNull :: repeat (reading_json hot_reading) 100;
  Dashboard.current_sensor_data := Json.JObject ∅;
  Dashboard.ai_recommendations := None
|}.

(** * Properties *)

(** ** Comparisons and clamps *)

Section Builtins.
Import Py.
Local Open Scope Q_scope.

Lemma Qltb_true a b : Qltb a b = true <-> a < b.
Proof.
  unfold Qltb. rewrite negb_true_iff, <- not_true_iff_false, Qle_bool_iff.
  split; [apply Qnot_le_lt | apply Qlt_not_le].
Qed.

Lemma Qltb_false a b : Qltb a b = false <-> b <= a.
Proof. unfold Qltb. rewrite negb_false_iff. apply Qle_bool_iff. Qed.

Lemma Qleb_true a b : Qleb a b = true <-> a <= b.
Proof. apply Qle_bool_iff. Qed.

Lemma py_min_cases a b : (b < a /\ py_min a b = b) \/ (a <= b /\ py_min a b = a).
Proof.
  unfold py_min. destruct (Qltb b a) eqn:E.
  - left. split; [now apply Qltb_true | reflexivity].
  - right. split; [now apply Qltb_false | reflexivity].
Qed.

Lemma py_max_cases a b : (a < b /\ py_max a b = b) \/ (b <= a /\ py_max a b = a).
Proof.
  unfold py_max. destruct (Qltb a b) eqn:E.
  - left. split; [now apply Qltb_true | reflexivity].
  - right. split; [now apply Qltb_false | reflexivity].
Qed.

(** [max(lo, min(hi, x))] lies in [[lo, hi]] whatever [x] is. *)
Lemma clamp_bounds lo hi x : lo <= hi -> lo <= py_max lo (py_min hi x) <= hi.
Proof.
  intros Hlh.
  destruct (py_min_cases hi x) as [[H1 ->] | [H1 ->]];
    [destruct (py_max_cases lo x) as [[H2 ->] | [H2 ->]]
    | destruct (py_max_cases lo hi) as [[H2 ->] | [H2 ->]]];
    split; lra.
Qed.

(** [min(hi, x)] alone bounds from above only. *)
Lemma py_min_upper hi x : py_min hi x <= hi.
Proof. destruct (py_min_cases hi x) as [[H1 ->] | [H1 ->]]; lra. Qed.

(** [max(0, x)] is not positive only when it is zero. *)
Lemma py_max_0_nonpos x : py_max 0 x <= 0 -> py_max 0 x == 0.
Proof.
  destruct (py_max_cases 0 x) as [[H1 ->] | [H1 ->]]; intros; lra.
Qed.

End Builtins.

(** ** The simulator *)

Section SimulatorProperties.
Context `{PyRuntime}.
Import Py Config Simulator.
Local Open Scope Q_scope.

Ltac draw :=
  repeat match goal with
         | |- context [random ?g] => destruct (random g)
         | |- context [randint ?a ?b ?g] => destruct (randint a b g)
         end.

Lemma simulate_temperature_changes_bounds now s g c :
  TEMP_FLOOR c <= temperature (fst (simulate_temperature_changes now s g)) c
               <= COMPONENT_MAX_TEMPS c.
Proof.
  unfold simulate_temperature_changes, uniform. draw.
  destruct c;
    cbn [fst temperature set_temps cpu_temp gpu_temp ssd_temp motherboard_temp
         TEMP_FLOOR];
    apply clamp_bounds; unfold COMPONENT_MAX_TEMPS; lra.
Qed.

Lemma calculate_fan_speeds_temps s g c :
  temperature (fst (calculate_fan_speeds s g)) c = temperature s c.
Proof. unfold calculate_fan_speeds. draw. now destruct c. Qed.

Lemma calculate_fan_speeds_bounds s g f :
  0 <= fan_rpm (fst (calculate_fan_speeds s g)) f <= FAN_MAX_RPM f.
Proof.
  unfold calculate_fan_speeds. draw.
  destruct f;
    cbn [fst fan_rpm set_fans cpu_fan_rpm gpu_fan_rpm case_fan_rpm FAN_MAX_RPM];
    apply clamp_bounds; lra.
Qed.

(** C1.  After a tick (update_gaming_session, then
    simulate_temperature_changes, then calculate_fan_speeds), from any
    state, with any draws of the generator and any clock reading, each of
    the four temperatures lies between its lower clamp (25 for cpu and
    gpu, 20 for ssd and motherboard) and its COMPONENT_MAX_TEMPS entry,
    and each fan speed lies between 0 and its maximum (4800, 4200,
    2800). *)
Theorem C1_tick_keeps_bounds now s g c f :
  (TEMP_FLOOR c <= temperature (fst (tick now s g)) c <= COMPONENT_MAX_TEMPS c)
  /\ (0 <= fan_rpm (fst (tick now s g)) f <= FAN_MAX_RPM f).
Proof.
  unfold tick.
  destruct (update_gaming_session s g) as [s1 g1].
  pose proof (simulate_temperature_changes_bounds now s1 g1 c) as Ht.
  destruct (simulate_temperature_changes now s1 g1) as [s2 g2].
  split.
  - rewrite calculate_fan_speeds_temps. exact Ht.
  - apply calculate_fan_speeds_bounds.
Qed.

(** *** What depends on the clock and what does not *)

Lemma simulate_temperature_changes_gaming now s g :
  gaming_state (fst (simulate_temperature_changes now s g)) = gaming_state s.
Proof. unfold simulate_temperature_changes, uniform. draw. reflexivity. Qed.

Lemma calculate_fan_speeds_gaming s g :
  gaming_state (fst (calculate_fan_speeds s g)) = gaming_state s.
Proof. unfold calculate_fan_speeds. draw. reflexivity. Qed.

Lemma simulate_temperature_changes_rng now1 now2 s1 s2 g :
  snd (simulate_temperature_changes now1 s1 g)
  = snd (simulate_temperature_changes now2 s2 g).
Proof. unfold simulate_temperature_changes, uniform. draw. reflexivity. Qed.

Lemma calculate_fan_speeds_rng s1 s2 g :
  snd (calculate_fan_speeds s1 g) = snd (calculate_fan_speeds s2 g).
Proof. unfold calculate_fan_speeds. draw. reflexivity. Qed.

Lemma update_gaming_session_indep s1 s2 g :
  gaming_state s1 = gaming_state s2 ->
  gaming_state (fst (update_gaming_session s1 g))
  = gaming_state (fst (update_gaming_session s2 g))
  /\ snd (update_gaming_session s1 g) = snd (update_gaming_session s2 g).
Proof.
  destruct s1, s2. unfold gaming_state. cbn. intros [= -> -> -> ->].
  unfold update_gaming_session, uniform. cbn.
  repeat match goal with
         | |- context [if ?b then _ else _] => destruct b; cbn
         | |- context [random ?g] => destruct (random g); cbn
         end; split; reflexivity.
Qed.

Lemma tick_gaming now s g :
  gaming_state (fst (tick now s g)) = gaming_state (fst (update_gaming_session s g)).
Proof.
  unfold tick. destruct (update_gaming_session s g) as [s1 g1].
  pose proof (simulate_temperature_changes_gaming now s1 g1) as E.
  destruct (simulate_temperature_changes now s1 g1) as [s2 g2].
  rewrite calculate_fan_speeds_gaming. exact E.
Qed.

Lemma tick_indep now1 now2 s1 s2 g :
  gaming_state s1 = gaming_state s2 ->
  gaming_state (fst (tick now1 s1 g)) = gaming_state (fst (tick now2 s2 g))
  /\ snd (tick now1 s1 g) = snd (tick now2 s2 g).
Proof.
  intros E. split.
  - rewrite !tick_gaming. now apply update_gaming_session_indep.
  - unfold tick.
    destruct (update_gaming_session_indep s1 s2 g E) as [_ Eg].
    destruct (update_gaming_session s1 g) as [a1 g1].
    destruct (update_gaming_session s2 g) as [a2 g2].
    cbn in Eg. subst g2.
    pose proof (simulate_temperature_changes_rng now1 now2 a1 a2 g1) as Er.
    destruct (simulate_temperature_changes now1 a1 g1) as [b1 h1].
    destruct (simulate_temperature_changes now2 a2 g1) as [b2 h2].
    cbn in Er. subst h2. apply calculate_fan_speeds_rng.
Qed.

Lemma get_sensor_data_gaming now1 now2 s1 s2 :
  gaming_state s1 = gaming_state s2 ->
  gaming_fields (get_sensor_data now1 s1) = gaming_fields (get_sensor_data now2 s2).
Proof.
  unfold gaming_state, gaming_fields, get_sensor_data. cbn.
  intros [= -> -> _ _]. reflexivity.
Qed.

Lemma main_loop_gaming n : forall clock1 clock2 calls s1 s2 g,
  gaming_state s1 = gaming_state s2 ->
  map gaming_fields (fst (main_loop n clock1 calls s1 g))
  = map gaming_fields (fst (main_loop n clock2 calls s2 g)).
Proof.
  induction n as [|n IH]; intros clock1 clock2 calls s1 s2 g E; [reflexivity|].
  cbn [main_loop].
  destruct (tick_indep (clock1 calls) (clock2 calls) s1 s2 g E) as [Es Eg].
  destruct (tick (clock1 calls) s1 g) as [a1 g1].
  destruct (tick (clock2 calls) s2 g) as [a2 g2].
  cbn in Es, Eg. subst g2.
  specialize (IH clock1 clock2 (S (S calls)) a1 a2 g1 Es).
  destruct (main_loop n clock1 (S (S calls)) a1 g1) as [r1 f1].
  destruct (main_loop n clock2 (S (S calls)) a2 g1) as [r2 f2].
  cbn [fst map] in *. f_equal; [now apply get_sensor_data_gaming | exact IH].
Qed.

Lemma main_loop_same_clock n : forall clock1 clock2 calls s g,
  (forall k, (calls <= k < calls + 2 * n)%nat -> clock1 k = clock2 k) ->
  main_loop n clock1 calls s g = main_loop n clock2 calls s g.
Proof.
  induction n as [|n IH]; intros clock1 clock2 calls s g E; [reflexivity|].
  cbn [main_loop].
  rewrite <- (E calls) by lia. rewrite <- (E (S calls)) by lia.
  destruct (tick (clock1 calls) s g) as [s' g'].
  rewrite (IH clock1 clock2 (S (S calls)) s' g'); [reflexivity|].
  intros k Hk. apply E. lia.
Qed.

(** C2, as amended.  Two runs of [n] ticks from the same state with the
    same generator state report the same gaming_session and
    gaming_intensity in every reading whatever their clocks are, and the
    same readings, field for field, when the [2 * n] readings of
    time.time() they take are the same. *)
Theorem C2_runs_agree_up_to_clock n clock1 clock2 s g :
  map gaming_fields (fst (main_loop n clock1 0 s g))
  = map gaming_fields (fst (main_loop n clock2 0 s g))
  /\ ((forall k, (k < 2 * n)%nat -> clock1 k = clock2 k) ->
      fst (main_loop n clock1 0 s g) = fst (main_loop n clock2 0 s g)).
Proof.
  split.
  - now apply main_loop_gaming.
  - intros E. rewrite (main_loop_same_clock n clock1 clock2 0 s g); [reflexivity|].
    intros k Hk. apply E. lia.
Qed.

(** *** The session state machine *)

Lemma update_gaming_session_idle_zero s g :
  idle_zero s -> idle_zero (fst (update_gaming_session s g)).
Proof.
  unfold idle_zero, update_gaming_session, uniform. intros Hs.
  destruct (gaming_session s) eqn:Eg; cbn [negb].
  - destruct (negb (cooling_phase _)).
    + repeat match goal with
             | |- context [if ?b then _ else _] => destruct b
             | |- context [random ?g] => destruct (random g)
             end; cbn; congruence.
    + match goal with |- context [Qleb ?a ?b] => destruct (Qleb a b) eqn:El end.
      * cbn. intros _. apply Qleb_true in El. cbn in El.
        now apply py_max_0_nonpos.
      * cbn. congruence.
  - destruct (random g) as [u g1]. destruct (Qltb _ _); cbn; [discriminate|].
    intros _. now apply Hs.
Qed.

Lemma tick_idle_zero now s g : idle_zero s -> idle_zero (fst (tick now s g)).
Proof.
  intros Hs. pose proof (update_gaming_session_idle_zero s g Hs) as Hu.
  pose proof (tick_gaming now s g) as E. unfold gaming_state in E.
  injection E as E1 E2 _ _. unfold idle_zero in *. rewrite E1, E2. exact Hu.
Qed.

Lemma reachable_idle_zero s : reachable s -> idle_zero s.
Proof.
  induction 1 as [|now s g _ IH].
  - intros _. reflexivity.
  - now apply tick_idle_zero.
Qed.

(** C5.  In every state the loop reaches, an inactive session has
    intensity 0; and when an inactive session draws a value below
    GAMING_SESSION_START_PROBABILITY, update_gaming_session leaves the
    session active with intensity 0.1, which is positive, session_time 0
    and the cooling flag down. *)
Theorem C5_idle_intensity_zero s g :
  reachable s ->
  (gaming_session s = false -> gaming_intensity s == 0)
  /\ (gaming_session s = false ->
      fst (random g) < GAMING_SESSION_START_PROBABILITY ->
      let s' := fst (update_gaming_session s g) in
      gaming_session s' = true /\ gaming_intensity s' == 0.1
      /\ 0 < gaming_intensity s' /\ session_time s' = 0%Z
      /\ cooling_phase s' = false).
Proof.
  intros Hr. split; [exact (reachable_idle_zero s Hr)|].
  intros Eg Hu. unfold update_gaming_session. rewrite Eg. cbn [negb].
  destruct (random g) as [u g1]. cbn [fst] in Hu.
  apply Qltb_true in Hu. rewrite Hu. cbn.
  repeat split; reflexivity.
Qed.

(** During warm-up the new intensity is the ramp plus a jitter between
    -0.1 and 0.1, cut off at 0.9 from above; nothing cuts it off from
    below. *)
Lemma warmup_step s g :
  gaming_session s = true -> cooling_phase s = false ->
  (session_time s + 1 <= GAMING_WARMUP_TIME)%Z ->
  0 <= fst (random g) <= 1 ->
  let s' := fst (update_gaming_session s g) in
  exists jitter,
    -0.1 <= jitter <= 0.1
    /\ gaming_intensity s'
       = py_min 0.9
           (inject_Z (session_time s + 1) / inject_Z GAMING_WARMUP_TIME * 0.7 + jitter)
    /\ gaming_intensity s' <= 0.9
    /\ session_time s' = (session_time s + 1)%Z
    /\ gaming_session s' = true /\ cooling_phase s' = false.
Proof.
  intros Eg Ec Ht Hu. unfold update_gaming_session, uniform.
  rewrite Eg. cbn [negb]. cbn [cooling_phase set_session_time set_gaming].
  rewrite Ec. cbn [negb session_time set_session_time set_gaming].
  apply Z.leb_le in Ht. rewrite Ht.
  destruct (random g) as [u g1]. cbn [fst] in *.
  exists (-0.1 + (0.1 - -0.1) * u). cbn.
  repeat split; try reflexivity; try lra; try assumption.
  apply py_min_upper.
Qed.

End SimulatorProperties.

(** C2, as stated, fails: with the same generator state, a run started
    one second later produces a different reading (the time stamp). *)
Lemma C2_same_seed_different_clock :
  fst (Simulator.main_loop (H := scripted) 1 (fixed_clock 1750263292) 0
         Simulator.init warmup_seed)
  <> fst (Simulator.main_loop (H := scripted) 1 (fixed_clock 1750263293) 0
            Simulator.init warmup_seed).
Proof. vm_compute. intros [=]. Qed.

Lemma C2_runs_agree_up_to_clock_witness :
  fst (Simulator.main_loop (H := scripted) 2 (fixed_clock 1750263292) 0
         Simulator.init warmup_seed)
  = fst (Simulator.main_loop (H := scripted) 2 drifting_clock 0
           Simulator.init warmup_seed).
Proof.
  apply (proj2 (C2_runs_agree_up_to_clock (H := scripted) 2 (fixed_clock 1750263292)
                  drifting_clock Simulator.init warmup_seed)).
  intros k Hk.
  do 4 (destruct k as [|k]; [reflexivity|]). lia.
Defined.

(** The idle temperatures of config.py are where the simulation starts,
    not a lower bound: one tick with the noise at its minimum takes the
    CPU from 42 to 41.22. *)
Lemma idle_temperature_is_not_a_floor :
  (temperature
     (fst (Simulator.tick (H := scripted) 1750263292 Simulator.init warmup_seed))
     Config.cpu
   < Config.COMPONENT_IDLE_TEMPS Config.cpu)%Q.
Proof. vm_compute. reflexivity. Qed.

(** C4.  The session starts on the first tick (draw 0.01); on the second
    tick, with session_time 1, the ramp is 0.7 / 30 and the jitter drawn
    is -0.1 + 0.2 * 0.25 = -0.05: the intensity the state machine stores
    is -2/75, below 0, and the reading reports -0.03. *)
Theorem C4_warmup_intensity_negative :
  let run :=
    Simulator.main_loop (H := scripted) 2 (fixed_clock 1750263292) 0
      Simulator.init warmup_seed in
  let s := fst (snd run) in
  Simulator.gaming_session s = true
  /\ Simulator.cooling_phase s = false
  /\ Simulator.session_time s = 1%Z
  /\ (Simulator.gaming_intensity s == - (2 # 75))%Q
  /\ (Simulator.gaming_intensity s < 0)%Q
  /\ map (fun r => Qred (Simulator.r_gaming_intensity r)) (fst run)
     = [0.1%Q; (- (3 # 100))%Q].
Proof. vm_compute. repeat split; reflexivity. Qed.

Lemma C5_idle_intensity_zero_witness :
  let s' := fst (Simulator.update_gaming_session (H := scripted)
                   Simulator.init warmup_seed) in
  Simulator.gaming_session s' = true /\ (Simulator.gaming_intensity s' == 0.1)%Q
  /\ (0 < Simulator.gaming_intensity s')%Q /\ Simulator.session_time s' = 0%Z
  /\ Simulator.cooling_phase s' = false.
Proof.
  apply (proj2 (C5_idle_intensity_zero (H := scripted) Simulator.init warmup_seed
                  (Simulator.reachable_init (H := scripted)))).
  - reflexivity.
  - reflexivity.
Defined.

(** ** The telemetry aggregator *)

Section AggregatorProperties.
Context `{PyRuntime}.
Import Py Json Optimizer.
Local Open Scope Q_scope.

Lemma fold_left_Qplus_total xs : forall a, fold_left Qplus xs a == a + total xs.
Proof.
  induction xs as [|x xs IH]; intros a; cbn [fold_left total].
  - lra.
  - rewrite IH. lra.
Qed.

Lemma py_sum_total xs : py_sum xs == total xs.
Proof. unfold py_sum. rewrite fold_left_Qplus_total. lra. Qed.

Lemma total_map_ext (f g : Q -> Q) xs :
  (forall x, f x == g x) -> total (map f xs) == total (map g xs).
Proof.
  intros E. induction xs as [|x xs IH]; cbn [map total]; [reflexivity|].
  rewrite IH, E. reflexivity.
Qed.

Lemma mapM_as_dict rs :
  mapM as_dict (map reading_json rs) = Ok (map reading_dict rs).
Proof.
  induction rs as [|r rs IH]; [reflexivity|].
  cbn [map mapM]. rewrite IH. reflexivity.
Qed.

Lemma column_map key (proj : Simulator.SensorReading -> Q) rs :
  (forall r, as_number (get (reading_dict r) key (JNum 0)) = Ok (proj r)) ->
  column key (map reading_dict rs) = Ok (map proj rs).
Proof.
  intros E. unfold column. induction rs as [|r rs IH]; [reflexivity|].
  cbn [map mapM]. rewrite E, IH. reflexivity.
Qed.

Lemma get_cpu_temp r :
  as_number (get (reading_dict r) "cpu_temp" (JNum 0)) = Ok (Simulator.r_cpu_temp r).
Proof. reflexivity. Qed.
Lemma get_gpu_temp r :
  as_number (get (reading_dict r) "gpu_temp" (JNum 0)) = Ok (Simulator.r_gpu_temp r).
Proof. reflexivity. Qed.
Lemma get_ssd_temp r :
  as_number (get (reading_dict r) "ssd_temp" (JNum 0)) = Ok (Simulator.r_ssd_temp r).
Proof. reflexivity. Qed.
Lemma get_motherboard_temp r :
  as_number (get (reading_dict r) "motherboard_temp" (JNum 0))
  = Ok (Simulator.r_motherboard_temp r).
Proof. reflexivity. Qed.
Lemma get_cpu_fan_rpm r :
  as_number (get (reading_dict r) "cpu_fan_rpm" (JNum 0))
  = Ok (inject_Z (Simulator.r_cpu_fan_rpm r)).
Proof. reflexivity. Qed.
Lemma get_gpu_fan_rpm r :
  as_number (get (reading_dict r) "gpu_fan_rpm" (JNum 0))
  = Ok (inject_Z (Simulator.r_gpu_fan_rpm r)).
Proof. reflexivity. Qed.
Lemma get_case_fan_rpm r :
  as_number (get (reading_dict r) "case_fan_rpm" (JNum 0))
  = Ok (inject_Z (Simulator.r_case_fan_rpm r)).
Proof. reflexivity. Qed.
Lemma get_gaming_intensity r :
  as_number (get (reading_dict r) "gaming_intensity" (JNum 0))
  = Ok (Simulator.r_gaming_intensity r).
Proof. reflexivity. Qed.
Lemma get_timestamp r :
  as_number (get (reading_dict r) "timestamp" (JNum 0))
  = Ok (inject_Z (Simulator.r_timestamp r)).
Proof. reflexivity. Qed.


Lemma temp_summary_cons x xs :
  temp_summary (x :: xs)
  = Ok {| avg := py_sum (x :: xs) / len (x :: xs);
          max := fold_left py_max xs x;
          min := fold_left py_min xs x;
          std := _calculate_std (x :: xs) |}.
Proof. reflexivity. Qed.

Lemma fan_summary_cons x xs :
  fan_summary (x :: xs)
  = Ok {| fan_avg := py_sum (x :: xs) / len (x :: xs);
          fan_max := fold_left py_max xs x;
          fan_min := fold_left py_min xs x |}.
Proof. reflexivity. Qed.

Lemma time_span_readings rs :
  exists span, _calculate_time_span (map reading_dict rs) = Ok span.
Proof.
  destruct rs as [|r rs]; [eexists; reflexivity|].
  unfold _calculate_time_span.
  destruct (Z.of_nat (length (map reading_dict (r :: rs))) <? 2)%Z;
    [eexists; reflexivity|].
  rewrite (column_map "timestamp" _ _ get_timestamp).
  cbn. eexists; reflexivity.
Qed.

Lemma analyze_readings r rs :
  exists s,
    analyze_temperature_data (map reading_json (r :: rs)) = Ok (Summary s)
    /\ cpu s = {| avg := py_sum (map Simulator.r_cpu_temp (r :: rs)) / len (r :: rs);
                  max := fold_left py_max (map Simulator.r_cpu_temp rs) (Simulator.r_cpu_temp r);
                  min := fold_left py_min (map Simulator.r_cpu_temp rs) (Simulator.r_cpu_temp r);
                  std := _calculate_std (map Simulator.r_cpu_temp (r :: rs)) |}
    /\ std (gpu s) = _calculate_std (map Simulator.r_gpu_temp (r :: rs))
    /\ std (ssd s) = _calculate_std (map Simulator.r_ssd_temp (r :: rs))
    /\ std (motherboard s) = _calculate_std (map Simulator.r_motherboard_temp (r :: rs))
    /\ avg (gpu s) = py_sum (map Simulator.r_gpu_temp (r :: rs)) / len (r :: rs)
    /\ avg_intensity (gaming s)
       = py_sum (map Simulator.r_gaming_intensity (r :: rs)) / len (r :: rs).
Proof.
  destruct (time_span_readings (r :: rs)) as [span Hspan].
  unfold analyze_temperature_data. cbn [map].
  change (reading_json r :: map reading_json rs) with (map reading_json (r :: rs)).
  rewrite mapM_as_dict. cbn [mbind result_bind bind].
  rewrite (column_map "cpu_temp" _ _ get_cpu_temp),
          (column_map "gpu_temp" _ _ get_gpu_temp),
          (column_map "ssd_temp" _ _ get_ssd_temp),
          (column_map "motherboard_temp" _ _ get_motherboard_temp),
          (column_map "cpu_fan_rpm" _ _ get_cpu_fan_rpm),
          (column_map "gpu_fan_rpm" _ _ get_gpu_fan_rpm),
          (column_map "case_fan_rpm" _ _ get_case_fan_rpm),
          (column_map "gaming_intensity" _ _ get_gaming_intensity).
  cbn [mbind result_bind bind map].
  rewrite !temp_summary_cons, !fan_summary_cons.
  cbn [mbind result_bind bind].
  change (reading_dict r :: map reading_dict rs) with (map reading_dict (r :: rs)).
  rewrite Hspan. cbn [mbind result_bind bind].
  eexists. split; [reflexivity|].
  cbn [cpu gpu ssd motherboard gaming std avg avg_intensity].
  unfold len. cbn [length]. rewrite !List.length_map. repeat split; reflexivity.
Qed.


(** The variance [_calculate_std] computes is the population variance. *)
Lemma code_variance_population xs :
  py_sum (map (fun x => (x - py_sum xs / len xs) ^ 2) xs) / len xs
  == population_variance xs.
Proof.
  unfold population_variance, squared_deviations, len.
  rewrite py_sum_total.
  rewrite (total_map_ext _ (fun x => (x - mean xs) * (x - mean xs))); [reflexivity|].
  intros x. unfold mean. rewrite py_sum_total. cbn [Qpower Qpower_positive Pos.iter_op].
  reflexivity.
Qed.

Lemma population_variance_singleton x : population_variance [x] == 0.
Proof.
  unfold population_variance, squared_deviations, mean. cbn [total map length].
  change (inject_Z (Z.of_nat 1)) with 1. field.
Qed.

(** Dividing by the number of values and dividing by one less differ:
    on the sample 0, 2 the code's variance is 1, the sample variance 2. *)
Lemma code_variance_is_not_sample_variance :
  py_sum (map (fun x => (x - py_sum [0; 2] / len [0; 2]) ^ 2) [0; 2]) / len [0; 2]
  == 1
  /\ population_variance [0; 2] == 1
  /\ sample_variance [0; 2] == 2.
Proof. repeat split; reflexivity. Qed.

Section SquareRoot.
Hypothesis pow_half_compat : forall p q, p == q -> pow_half p == pow_half q.
Hypothesis pow_half_zero : pow_half 0 == 0.

Lemma calculate_std_population xs :
  xs <> [] -> _calculate_std xs == pow_half (population_variance xs).
Proof.
  destruct xs as [|x xs]; [congruence|]. intros _.
  unfold _calculate_std. apply pow_half_compat, code_variance_population.
Qed.

Lemma calculate_std_singleton x : _calculate_std [x] == 0.
Proof.
  rewrite calculate_std_population by discriminate.
  rewrite (pow_half_compat _ 0 (population_variance_singleton x)).
  exact pow_half_zero.
Qed.

(** C9.  For a non-empty list of readings the aggregator returns a
    summary whose std, for each of the four temperature channels, is the
    root ([** 0.5]) of the population variance of that channel: the
    squared deviations from the mean summed and divided by the number of
    readings, not by one less.  For a single reading all four are 0.  The
    root is a parameter of which only two facts are used: it maps equal
    rationals to equal rationals, and 0 to 0. *)
Theorem C9_std_is_population_std (rs : list Simulator.SensorReading) :
  rs <> [] ->
  exists s,
    analyze_temperature_data (map reading_json rs) = Ok (Summary s)
    /\ std (cpu s) == pow_half (population_variance (map Simulator.r_cpu_temp rs))
    /\ std (gpu s) == pow_half (population_variance (map Simulator.r_gpu_temp rs))
    /\ std (ssd s) == pow_half (population_variance (map Simulator.r_ssd_temp rs))
    /\ std (motherboard s)
       == pow_half (population_variance (map Simulator.r_motherboard_temp rs))
    /\ (length rs = 1%nat ->
        std (cpu s) == 0 /\ std (gpu s) == 0 /\ std (ssd s) == 0
        /\ std (motherboard s) == 0).
Proof.
  destruct rs as [|r rs]; [congruence|]. intros _.
  destruct (analyze_readings r rs) as (s & Hs & Hcpu & Hgpu & Hssd & Hmb & _).
  exists s. split; [exact Hs|].
  rewrite Hcpu, Hgpu, Hssd, Hmb. cbn [std].
  repeat split; try (apply calculate_std_population; discriminate).
  all: destruct rs; [|discriminate]; apply calculate_std_singleton.
Qed.
End SquareRoot.

End AggregatorProperties.

(** ** The fan-curve recommender *)

Section TableProperties.
Import Py Json Optimizer.
Local Open Scope Q_scope.

Lemma In_preferences p :
  In p preferences ->
  p = "balanced"%string \/ p = "best_temps"%string \/ p = "most_quiet"%string.
Proof. cbn. intuition. Qed.

Lemma base_curves_unknown p : ~ In p preferences -> base_curves !! p = None.
Proof.
  intros Hp. unfold base_curves.
  rewrite !lookup_insert_ne, lookup_singleton_ne; [reflexivity|..];
    intros <-; apply Hp; cbn; auto.
Qed.

Lemma valid_setpoints_literal a b c d e :
  (0 <= a)%Z -> (0 <= b)%Z -> (0 <= c)%Z -> (0 <= d)%Z -> (0 <= e)%Z ->
  valid_setpoints [a; b; c; d; e].
Proof. intros. split; [reflexivity | repeat constructor; assumption]. Qed.

(** Every row of the table has the three fans, five set points each. *)
Lemma base_curves_known p :
  In p preferences ->
  exists base c g k,
    base_curves !! p = Some base
    /\ base !! "cpu_fan" = Some c /\ base !! "gpu_fan" = Some g
    /\ base !! "case_fan" = Some k
    /\ valid_setpoints c /\ valid_setpoints g /\ valid_setpoints k.
Proof.
  intros Hp. unfold base_curves.
  destruct (In_preferences p Hp) as [-> | [-> | ->]];
    do 4 eexists;
    (split; [rewrite ?lookup_insert_eq, ?lookup_insert_ne, ?lookup_singleton_eq
               by discriminate; reflexivity|]);
    (split; [apply lookup_insert_eq|]);
    (split; [rewrite lookup_insert_ne by discriminate; apply lookup_insert_eq|]);
    (split; [rewrite !lookup_insert_ne by discriminate; apply lookup_singleton_eq|]);
    repeat split; apply valid_setpoints_literal; lia.
Qed.

Lemma raise_curve_known curves fan k c :
  curves !! fan = Some c ->
  raise_curve curves fan k = Ok (<[fan := map (fun rpm => (rpm + k)%Z) c]> curves).
Proof. intros E. unfold raise_curve, getitem. rewrite E. reflexivity. Qed.

Lemma try_except_same {A : Type} (x : result A) : try_except x (fun _ => x) = x.
Proof. now destruct x. Qed.

Lemma try_except_fallback {A : Type} (body sim : result A) :
  body = sim \/ (exists e, body = Raise e) ->
  try_except body (fun _ => sim) = sim.
Proof. intros [-> | [e ->]]; [apply try_except_same | reflexivity]. Qed.

End TableProperties.

Section LocalPolicy.
Import Py Json Optimizer.
Local Open Scope Q_scope.
Variable now : string.

(** The local policy, row by row: each fan's curve is the row's,
    raised when its threshold is passed. *)
Lemma simulated_curves_spec a p base c g k :
  base_curves !! p = Some base ->
  base !! "cpu_fan" = Some c -> base !! "gpu_fan" = Some g ->
  base !! "case_fan" = Some k ->
  exists curves notes,
    _generate_simulated_curves now a p = Ok (Simulated p curves a notes now)
    /\ curves !! "cpu_fan" = Some (raised (Qltb 70 (get_cpu_avg a)) 200 c)
    /\ curves !! "gpu_fan" = Some (raised (Qltb 75 (get_gpu_avg a)) 200 g)
    /\ curves !! "case_fan" = Some (raised (Qltb 0.7 (get_avg_intensity a)) 150 k).
Proof.
  intros Hbase Hc Hg Hk. unfold _generate_simulated_curves, getitem.
  rewrite Hbase. cbn [mbind result_bind bind].
  set (hot_cpu := Qltb 70 (get_cpu_avg a)).
  set (hot_gpu := Qltb 75 (get_gpu_avg a)).
  set (hot_case := Qltb 0.7 (get_avg_intensity a)).
  destruct hot_cpu, hot_gpu, hot_case; cbn [raised];
    repeat (first
      [ erewrite raise_curve_known
          by (rewrite ?lookup_insert_ne by discriminate; eassumption)
      | progress cbn [mbind result_bind bind] ]);
    do 2 eexists; (split; [reflexivity|]);
    repeat split;
    repeat (rewrite lookup_insert_eq || rewrite lookup_insert_ne by discriminate);
    first [reflexivity | assumption].
Qed.


Lemma raised_by_map k c : raised_by k (map (fun rpm => (rpm + k)%Z) c) c.
Proof. induction c; constructor; [lia | assumption]. Qed.

Lemma valid_setpoints_raised hot k c :
  (0 <= k)%Z -> valid_setpoints c -> valid_setpoints (raised hot k c).
Proof.
  intros Hk [Hlen Hpos]. destruct hot; cbn [raised]; [|now split].
  split; [now rewrite List.length_map|].
  clear Hlen. induction Hpos as [|b c Hb _ IH]; constructor; [lia | exact IH].
Qed.

Lemma simulated_curves_valid a p :
  In p preferences ->
  exists r, _generate_simulated_curves now a p = Ok r /\ valid_recommendation r.
Proof.
  intros Hp.
  destruct (base_curves_known p Hp) as (base & c & g & k & Hb & Hc & Hg & Hk & Vc & Vg & Vk).
  destruct (simulated_curves_spec a p base c g k Hb Hc Hg Hk)
    as (curves & notes & Hsim & Ec & Eg & Ek).
  eexists. split; [exact Hsim|].
  intros fan [<- | [<- | [<- | []]]]; eexists; (split; [eassumption|]);
    now apply valid_setpoints_raised.
Qed.

(** C7.  For every analysis and every preference of the table, the local
    policy returns a recommendation in which, set point by set point, the
    CPU curve is at least the base CPU curve plus 200 when the average
    CPU temperature exceeds 70, the GPU curve at least the base GPU curve
    plus 200 when the average GPU temperature exceeds 75, and the case-fan
    curve at least the base case-fan curve plus 150 when the average
    gaming intensity exceeds 0.7. *)
Theorem C7_hot_summary_raises_curves a p :
  In p preferences ->
  exists base curves notes,
    base_curves !! p = Some base
    /\ _generate_simulated_curves now a p = Ok (Simulated p curves a notes now)
    /\ (70 < get_cpu_avg a -> fan_raised_by 200 "cpu_fan" curves base)
    /\ (75 < get_gpu_avg a -> fan_raised_by 200 "gpu_fan" curves base)
    /\ (0.7 < get_avg_intensity a -> fan_raised_by 150 "case_fan" curves base).
Proof.
  intros Hp.
  destruct (base_curves_known p Hp) as (base & c & g & k & Hb & Hc & Hg & Hk & _).
  destruct (simulated_curves_spec a p base c g k Hb Hc Hg Hk)
    as (curves & notes & Hsim & Ec & Eg & Ek).
  exists base, curves, notes. split; [exact Hb|]. split; [exact Hsim|].
  repeat split; intros Hhot; apply Qltb_true in Hhot;
    rewrite Hhot in *; cbn [raised] in *;
    do 2 eexists; (split; [eassumption|]); (split; [eassumption|]);
    apply raised_by_map.
Qed.

End LocalPolicy.

(** ** Exceptions on the remote path *)

Section RemotePath.
Import Py Json Optimizer.
Local Open Scope Q_scope.
Variable json_loads : string -> option json.
Variable requests_post : request -> http_outcome.
Variable now : string.

(** Reading [result['content'][0]['text']] out of the decoded body. *)
Lemma navigate_text body (K : json -> result recommendation) :
  let steps :=
    match json_loads body with
    | None => Raise JSONDecodeError
    | Some result =>
        blocks ← subscript result "content";
        block ← first_item blocks;
        claude_response ← subscript block "text";
        K claude_response
    end in
  (advisory_text json_loads body = None -> exists e, steps = Raise e)
  /\ (forall v, advisory_text json_loads body = Some v -> steps = K v).
Proof.
  unfold advisory_text, subscript, getitem, first_item.
  destruct (json_loads body) as [[| | | | |envelope]|]; cbn;
    try (split; [eexists; reflexivity | discriminate]).
  destruct (envelope !! "content"%string) as [[| | |[|]|[|[| | | | |block] rest]|]|]; cbn;
    try (split; [eexists; reflexivity | discriminate]).
  destruct (block !! "text"%string) as [v|]; cbn.
  - split; [discriminate | now intros ? [= <-]].
  - split; [eexists; reflexivity | discriminate].
Qed.

Lemma parse_failure_falls_back (response : json) a p :
  (forall text, response <> JString text)
  \/ (exists text, response = JString text
      /\ (Str.find text "{" = (-1)%Z \/ (Str.rfind text "}" < Str.find text "{")%Z
          \/ json_loads (Str.slice text (Str.find text "{") (Str.rfind text "}" + 1)) = None
          \/ (exists v,
                json_loads (Str.slice text (Str.find text "{") (Str.rfind text "}" + 1)) = Some v
                /\ forall d, v <> JObject d)
          \/ (exists d v,
                json_loads (Str.slice text (Str.find text "{") (Str.rfind text "}" + 1))
                = Some (JObject d)
                /\ d !! "analysis"%string = Some v /\ forall n, v <> JObject n))) ->
  _parse_claude_response json_loads now response a p
  = _generate_simulated_curves now a p.
Proof.
  intros Hf. unfold _parse_claude_response. apply try_except_fallback. right.
  destruct Hf as [Hns | (text & -> & Hf)].
  - destruct response; try (eexists; reflexivity). now destruct (Hns s).
  - destruct (negb (Str.find text "{" =? -1)%Z && (Str.find text "{" <? Str.rfind text "}" + 1)%Z)
      eqn:Hspan; [|eexists; reflexivity].
    apply andb_true_iff in Hspan as [H1 H2].
    apply negb_true_iff, Z.eqb_neq in H1. apply Z.ltb_lt in H2.
    destruct Hf as [Hf | [Hf | [Hf | [(v & Hv & Hno) | (d & v & Hd & Hv & Hno)]]]];
      try lia.
    + rewrite Hf. eexists; reflexivity.
    + rewrite Hv. destruct v; try (eexists; reflexivity). now destruct (Hno members).
    + rewrite Hd. cbn [as_dict mbind result_bind bind]. unfold get. rewrite Hv.
      cbn [default]. destruct v; try (eexists; reflexivity). now destruct (Hno members).
Qed.

Lemma claude_failure_falls_back self a p :
  (forall req, remote_failure json_loads (requests_post req)) ->
  _generate_claude_curves json_loads requests_post now self a p
  = _generate_simulated_curves now a p.
Proof.
  intros Hall. unfold _generate_claude_curves.
  destruct a as [|s]; [reflexivity|].
  cbn [_build_claude_prompt mbind result_bind bind].
  match goal with |- context [requests_post ?r] => specialize (Hall r); set (req := r) in * end.
  apply try_except_fallback.
  inversion Hall as [e He | code body Hcode He | body Htext He | body v Htext Hv He
                    | body text Htext Hb He | body text Htext Hl He
                    | body text v Htext Hl Hv He | body text d v Htext Hl Hd Hv He].
  - right. eexists; reflexivity.
  - left. apply Z.eqb_neq in Hcode. now rewrite Hcode.
  - right. cbn [Z.eqb Pos.eqb].
    exact (proj1 (navigate_text body _) Htext).
  - left. cbn [Z.eqb Pos.eqb]. rewrite (proj2 (navigate_text body _) v Htext).
    apply parse_failure_falls_back. now left.
  - left. cbn [Z.eqb Pos.eqb]. rewrite (proj2 (navigate_text body _) _ Htext).
    apply parse_failure_falls_back. right. exists text. split; [reflexivity|].
    destruct Hb; auto.
  - left. cbn [Z.eqb Pos.eqb]. rewrite (proj2 (navigate_text body _) _ Htext).
    apply parse_failure_falls_back. right. exists text. split; [reflexivity|]. auto.
  - left. cbn [Z.eqb Pos.eqb]. rewrite (proj2 (navigate_text body _) _ Htext).
    apply parse_failure_falls_back. right. exists text. split; [reflexivity|].
    do 3 right. left. eauto.
  - left. cbn [Z.eqb Pos.eqb]. rewrite (proj2 (navigate_text body _) _ Htext).
    apply parse_failure_falls_back. right. exists text. split; [reflexivity|].
    do 4 right. eauto.
Qed.

Lemma failure_falls_back self a p :
  (forall req, remote_failure json_loads (requests_post req)) ->
  generate_fan_curves json_loads requests_post now self a p
  = _generate_simulated_curves now a p.
Proof.
  intros Hall. unfold generate_fan_curves.
  destruct (use_simulation self); [reflexivity|].
  now apply claude_failure_falls_back.
Qed.

(** C6.  For every analysis and every preference among balanced,
    best_temps and most_quiet: when every call of the advisory service
    fails (the transport raises, the status is not 200, or no JSON object
    can be taken out of the answer), generate_fan_curves returns what the
    local policy returns, and that is a recommendation, not an exception,
    with five non-negative set points for each of the three fans. *)
Theorem C6_remote_failure_falls_back self a p :
  In p preferences ->
  (forall req, remote_failure json_loads (requests_post req)) ->
  generate_fan_curves json_loads requests_post now self a p
  = _generate_simulated_curves now a p
  /\ exists r,
       generate_fan_curves json_loads requests_post now self a p = Ok r
       /\ valid_recommendation r.
Proof.
  intros Hp Hall. rewrite (failure_falls_back self a p Hall).
  split; [reflexivity|]. now apply simulated_curves_valid.
Qed.

(** C10.  For a preference outside balanced, best_temps and most_quiet
    the local policy raises KeyError on the table look-up, and so does
    generate_fan_curves, both in simulation mode and when the remote path
    fails and its handler calls the local policy; for a preference of the
    table the local policy returns a recommendation. *)
Theorem C10_unknown_preference_raises self a p :
  ~ In p preferences ->
  _generate_simulated_curves now a p = Raise (KeyError p)
  /\ (use_simulation self = true ->
      generate_fan_curves json_loads requests_post now self a p = Raise (KeyError p))
  /\ ((forall req, remote_failure json_loads (requests_post req)) ->
      generate_fan_curves json_loads requests_post now self a p = Raise (KeyError p))
  /\ (forall q, In q preferences ->
      exists r, _generate_simulated_curves now a q = Ok r).
Proof.
  intros Hp.
  assert (Hsim : _generate_simulated_curves now a p = Raise (KeyError p)).
  { unfold _generate_simulated_curves, getitem.
    now rewrite (base_curves_unknown p Hp). }
  split; [exact Hsim|]. split; [|split].
  - intros Hs. unfold generate_fan_curves. now rewrite Hs.
  - intros Hall. now rewrite (failure_falls_back self a p Hall).
  - intros q Hq. destruct (simulated_curves_valid now a q Hq) as (r & Hr & _). eauto.
Qed.

End RemotePath.

(** ** The log reader and the entry point of the dashboard *)

Section DashboardProperties.
Context `{PyRuntime}.
Import Py Json Optimizer Dashboard.
Variable json_loads : string -> option json.
Variable requests_post : request -> http_outcome.
Variable now : string.
Variable claude_optimizer : ClaudeAIOptimizer.

(** C3, as amended.  Given no readings, analyze_temperature_data raises
    nothing: it returns the empty dictionary.  Its caller
    generate_ai_fan_curves, when the history is empty and the sample is
    absent or empty, returns the dictionary whose only key is "error"
    without calling the aggregator, and leaves the state as it was. *)
Theorem C3_empty_input_returns_empty_summary preference st :
  sensor_history st = [] ->
  analyze_temperature_data [] = Ok EmptyAnalysis
  /\ generate_ai_fan_curves json_loads requests_post now claude_optimizer
       preference None st
     = Ok (ErrorReply "No data available for analysis", st)
  /\ generate_ai_fan_curves json_loads requests_post now claude_optimizer
       preference (Some []) st
     = Ok (ErrorReply "No data available for analysis", st).
Proof.
  intros Hst. unfold generate_ai_fan_curves. rewrite Hst.
  repeat split; reflexivity.
Qed.

End DashboardProperties.

(** C8.  The text of the interrupted log does not decode as it is; the
    log reader drops its trailing comma, appends a closing bracket and
    gets a history of exactly two records, the second of which becomes the
    current reading. *)
Theorem C8_truncated_log_two_records file_again st :
  let st' := Dashboard.load_sensor_data Json.loads (Dashboard.Content truncated_log) file_again st in
  Json.loads truncated_log = None
  /\ Dashboard.sensor_history st'
     = [Json.JObject {[ "a" := Json.JNum 1 ]}; Json.JObject {[ "b" := Json.JNum 2 ]}]
  /\ length (Dashboard.sensor_history st') = 2%nat
  /\ Dashboard.current_sensor_data st' = Json.JObject {[ "b" := Json.JNum 2 ]}.
Proof. vm_compute. repeat split; reflexivity. Qed.


(** ** The properties at chosen inputs *)

(** C3, as stated, fails: on the empty list the aggregator returns a
    value, it does not raise. *)
Lemma C3_empty_input_does_not_raise :
  Optimizer.analyze_temperature_data (H := scripted) []
  = Py.Ok Optimizer.EmptyAnalysis
  /\ ~ (exists e, Optimizer.analyze_temperature_data (H := scripted) []
                  = Py.Raise e).
Proof. split; [reflexivity | intros [e [=]]]. Qed.

Lemma C3_empty_input_returns_empty_summary_witness :
  Dashboard.generate_ai_fan_curves (H := scripted) Json.loads unreachable_service
    "2025-06-18T16:14:52" (Optimizer.new None None) "balanced" None empty_state
  = Py.Ok (Dashboard.ErrorReply "No data available for analysis", empty_state).
Proof.
  apply (C3_empty_input_returns_empty_summary (H := scripted) Json.loads
           unreachable_service "2025-06-18T16:14:52" (Optimizer.new None None)
           "balanced" empty_state).
  reflexivity.
Defined.

Lemma C6_remote_failure_falls_back_witness :
  exists r,
    Optimizer.generate_fan_curves Json.loads unreachable_service
      "2025-06-18T16:14:52" (Optimizer.new (Some "key") None)
      Optimizer.EmptyAnalysis "balanced" = Py.Ok r
    /\ valid_recommendation r.
Proof.
  apply (C6_remote_failure_falls_back Json.loads unreachable_service
           "2025-06-18T16:14:52" (Optimizer.new (Some "key") None)
           Optimizer.EmptyAnalysis "balanced").
  - left. reflexivity.
  - intros req. apply transport_error.
Defined.

Lemma C7_hot_summary_raises_curves_witness :
  exists a,
    Optimizer.analyze_temperature_data (H := scripted)
      (repeat (reading_json hot_reading) 100) = Py.Ok a
    /\ (70 < Optimizer.get_cpu_avg a)%Q
    /\ exists base curves notes,
         Optimizer.base_curves !! "balanced" = Some base
         /\ Optimizer._generate_simulated_curves "2025-06-18T16:14:52" a "balanced"
            = Py.Ok (Optimizer.Simulated "balanced" curves a notes
                       "2025-06-18T16:14:52")
         /\ fan_raised_by 200 "cpu_fan" curves base.
Proof.
  eexists. split; [vm_compute; reflexivity|].
  split; [vm_compute; reflexivity|].
  match goal with
  | |- context [Optimizer._generate_simulated_curves _ ?a _] =>
      destruct (C7_hot_summary_raises_curves "2025-06-18T16:14:52" a "balanced")
        as (base & curves & notes & Hb & Hs & Hcpu & _)
  end.
  - left. reflexivity.
  - exists base, curves, notes. split; [exact Hb|]. split; [exact Hs|].
    apply Hcpu. vm_compute. reflexivity.
Defined.

Lemma Qsqrt_exact_compat p q : (p == q -> Qsqrt_exact p == Qsqrt_exact q)%Q.
Proof.
  intros E. unfold Qsqrt_exact. rewrite (Qred_complete p q E). reflexivity.
Qed.

Lemma C9_std_is_population_std_witness :
  exists s,
    Optimizer.analyze_temperature_data (H := scripted) [reading_json hot_reading]
    = Py.Ok (Optimizer.Summary s)
    /\ (Optimizer.std (Optimizer.cpu s) == 0)%Q
    /\ (Optimizer.std (Optimizer.gpu s) == 0)%Q
    /\ (Optimizer.std (Optimizer.ssd s) == 0)%Q
    /\ (Optimizer.std (Optimizer.motherboard s) == 0)%Q.
Proof.
  destruct (C9_std_is_population_std (H := scripted) Qsqrt_exact_compat
              (Qeq_refl 0) [hot_reading])
    as (s & Hs & _ & _ & _ & _ & Hone).
  - discriminate.
  - exists s. split; [exact Hs|]. apply Hone. reflexivity.
Defined.

Lemma C10_unknown_preference_raises_witness :
  Optimizer._generate_simulated_curves "2025-06-18T16:14:52"
    Optimizer.EmptyAnalysis "turbo"
  = Py.Raise (Py.KeyError "turbo")
  /\ Optimizer.generate_fan_curves Json.loads unreachable_service
       "2025-06-18T16:14:52" (Optimizer.new (Some "key") None)
       Optimizer.EmptyAnalysis "turbo"
     = Py.Raise (Py.KeyError "turbo").
Proof.
  destruct (C10_unknown_preference_raises Json.loads unreachable_service
              "2025-06-18T16:14:52" (Optimizer.new (Some "key") None)
              Optimizer.EmptyAnalysis "turbo")
    as (Hsim & _ & Hremote & _).
  - cbn. intros [E | [E | [E | []]]]; discriminate E.
  - split; [exact Hsim|]. apply Hremote. intros req. apply transport_error.
Defined.

(** ** More on the simulator *)

Section SessionMachine.
Context `{PyRuntime}.
Import Py Config Simulator.
Local Open Scope Q_scope.

Ltac fields :=
  cbn [fst gaming_session cooling_phase session_time gaming_intensity
       set_session_time set_gaming_session set_gaming_intensity
       set_cooling_phase set_gaming].
Ltac fields_in_all :=
  cbn [fst gaming_session cooling_phase session_time gaming_intensity
       set_session_time set_gaming_session set_gaming_intensity
       set_cooling_phase set_gaming] in *.

Lemma py_max_0_pos x : 0 < py_max 0 x -> py_max 0 x = x /\ 0 < x.
Proof.
  destruct (py_max_cases 0 x) as [[H1 E] | [H1 E]]; rewrite E; intros; split;
    try reflexivity; lra.
Qed.

Lemma Qleb_false a b : Qleb a b = false <-> b < a.
Proof.
  unfold Qleb. rewrite <- not_true_iff_false, Qle_bool_iff.
  split; [apply Qnot_le_lt | apply Qlt_not_le].
Qed.

Lemma inject_Z_step z : inject_Z (z + 1) == inject_Z z + 1.
Proof. rewrite inject_Z_plus. reflexivity. Qed.

Lemma update_gaming_session_inv s g :
  session_inv s -> session_inv (fst (update_gaming_session s g)).
Proof.
  unfold session_inv, update_gaming_session, uniform.
  destruct (gaming_session s) eqn:Eg; cbn [negb].
  - cbn [cooling_phase set_session_time set_gaming session_time].
    destruct (cooling_phase s) eqn:Ec; cbn [negb].
    + intros (Ht & Hpos & Hle).
      match goal with |- context [Qleb ?a ?b] => destruct (Qleb a b) eqn:El end;
        fields_in_all.
      * split; [reflexivity|]. apply Qleb_true in El. now apply py_max_0_nonpos.
      * rewrite Eg, Ec. apply Qleb_false in El.
        destruct (py_max_0_pos _ El) as [E Hx]. rewrite E.
        unfold GAMING_COOLDOWN_RATE in *.
        assert (Hi : inject_Z (session_time s + 1 - 151)
                     == inject_Z (session_time s - 151) + 1).
        { rewrite <- inject_Z_step. f_equiv. lia. }
        assert (Hlt : inject_Z (session_time s + 1 - 151) < 50).
        { rewrite Hi. lra. }
        change 50 with (inject_Z 50) in Hlt. rewrite <- Zlt_Qlt in Hlt.
        repeat split; try lia; try lra; rewrite Hi; lra.
    + intros (Ht & Hle & Hact).
      destruct (session_time s + 1 <=? GAMING_WARMUP_TIME)%Z eqn:Ew;
        [|destruct (session_time s + 1 <=? GAMING_WARMUP_TIME + GAMING_DURATION)%Z eqn:Ea].
      * destruct (random g) as [u g1].
        fields.
        rewrite Eg, Ec. apply Z.leb_le in Ew. unfold GAMING_WARMUP_TIME in Ew.
        repeat split; try lia.
        match goal with |- py_min ?a ?b <= _ => pose proof (py_min_upper a b) end.
        lra.
      * destruct (random g) as [u g1].
        fields.
        rewrite Eg, Ec. apply Z.leb_le in Ea.
        unfold GAMING_WARMUP_TIME, GAMING_DURATION in Ea.
        match goal with |- context [py_max ?lo (py_min ?hi ?x)] =>
          pose proof (clamp_bounds lo hi x ltac:(lra)) end.
        repeat split; try lia; try lra.
      * fields.
        rewrite Eg. apply Z.leb_gt in Ea.
        unfold GAMING_WARMUP_TIME, GAMING_DURATION in Ea.
        assert (Et : session_time s = 150%Z) by lia.
        specialize (Hact ltac:(lia)).
        rewrite Et. repeat split; try lia; try lra.
        change (inject_Z (150 + 1 - 151)) with 0. lra.
  - intros [Ht Hi]. destruct (random g) as [u g1].
    destruct (Qltb u GAMING_SESSION_START_PROBABILITY);
      fields.
    + repeat split; try lia; try lra.
    + rewrite Eg. now split.
Qed.

Lemma session_inv_gaming_state s1 s2 :
  gaming_state s1 = gaming_state s2 -> session_inv s1 -> session_inv s2.
Proof.
  unfold gaming_state, session_inv. intros [= E1 E2 E3 E4].
  now rewrite E1, E2, E3, E4.
Qed.

Lemma reachable_session_inv s : reachable s -> session_inv s.
Proof.
  induction 1 as [|now s g _ IH].
  - unfold session_inv. cbn. split; reflexivity.
  - apply (session_inv_gaming_state (fst (update_gaming_session s g))).
    + symmetry. apply tick_gaming.
    + now apply update_gaming_session_inv.
Qed.

(** While a session is on, a step either ends it or adds one to
    session_time. *)
Lemma update_gaming_session_age s g :
  gaming_session s = true ->
  let s' := fst (update_gaming_session s g) in
  (gaming_session s' = false /\ session_time s' = 0%Z)
  \/ (gaming_session s' = true /\ session_time s' = (session_time s + 1)%Z).
Proof.
  intros Eg. unfold update_gaming_session, uniform. rewrite Eg. cbn [negb].
  cbn [cooling_phase set_session_time set_gaming session_time].
  repeat match goal with
         | |- context [if ?b then _ else _] => destruct b
         | |- context [random ?g] => destruct (random g)
         end; cbn; auto.
Qed.

(** X1.  At the head of every iteration of the main loop the session
    clock lies between 0 and 200; it is 0 whenever no session is active;
    and during a session one call of update_gaming_session either ends the
    session, putting the clock back to 0, or advances the clock by exactly
    one.  (Intensities are exact rationals here, as everywhere in this
    development.) *)
Theorem session_lasts_at_most_201_ticks s g :
  reachable s ->
  (0 <= session_time s <= 200)%Z
  /\ (gaming_session s = false -> session_time s = 0%Z)
  /\ (gaming_session s = true ->
      let s' := fst (update_gaming_session s g) in
      (gaming_session s' = false /\ session_time s' = 0%Z)
      \/ (gaming_session s' = true /\ session_time s' = (session_time s + 1)%Z)).
Proof.
  intros Hr. pose proof (reachable_session_inv s Hr) as Hi.
  unfold session_inv in Hi.
  split; [|split].
  - destruct (gaming_session s); [destruct (cooling_phase s)|]; lia.
  - intros E. rewrite E in Hi. tauto.
  - apply update_gaming_session_age.
Qed.

(** X2.  At the head of every iteration of the main loop the gaming
    intensity is at most 1; in a session that is not cooling down and whose
    clock has passed the warm-up (31 or more) it is at least 0.5; and in
    the cooling phase it is positive and at most 1 minus 0.02 for every
    tick since the clock read 151. *)
Theorem intensity_range s :
  reachable s ->
  gaming_intensity s <= 1
  /\ (gaming_session s = true -> cooling_phase s = false ->
      (31 <= session_time s)%Z -> 0.5 <= gaming_intensity s)
  /\ (gaming_session s = true -> cooling_phase s = true ->
      0 < gaming_intensity s
      /\ gaming_intensity s <= 1 - 0.02 * inject_Z (session_time s - 151)).
Proof.
  intros Hr. pose proof (reachable_session_inv s Hr) as Hi.
  unfold session_inv in Hi.
  destruct (gaming_session s); [destruct (cooling_phase s)|].
  - destruct Hi as (Ht & Hpos & Hle).
    assert (0 <= inject_Z (session_time s - 151)).
    { change 0 with (inject_Z 0). rewrite <- Zle_Qle. lia. }
    repeat split; try discriminate; try lra.
  - destruct Hi as (Ht & Hle & Hact).
    repeat split; try discriminate; auto.
  - destruct Hi as [_ Hz]. repeat split; try discriminate. lra.
Qed.

End SessionMachine.

Section FanControl.
Context `{PyRuntime}.
Import Py Config Simulator.
Local Open Scope Q_scope.

Ltac compare_all :=
  repeat match goal with
         | |- context [Qltb ?a ?b] =>
             let E := fresh "E" in
             destruct (Qltb a b) eqn:E;
             [apply Qltb_true in E | apply Qltb_false in E]
         end.

Lemma cpu_fan_target_mono t1 t2 :
  t1 <= t2 -> cpu_fan_target t1 <= cpu_fan_target t2.
Proof. intros Ht. unfold cpu_fan_target. compare_all; lra. Qed.

Lemma gpu_fan_target_mono t1 t2 :
  t1 <= t2 -> gpu_fan_target t1 <= gpu_fan_target t2.
Proof.
  intros Ht. unfold gpu_fan_target.
  repeat match goal with
         | |- context [py_max 0 ?u] =>
             destruct (py_max_cases 0 u) as [[? ->] | [? ->]]
         end;
    compare_all; lra.
Qed.

Lemma case_fan_target_mono t1 t2 :
  t1 <= t2 -> case_fan_target t1 <= case_fan_target t2.
Proof. intros Ht. unfold case_fan_target. compare_all; lra. Qed.

(** X3.  The three target speeds of calculate_fan_speeds are
    non-decreasing functions of the temperature they are computed from: a
    hotter CPU, GPU or case average never asks for a slower fan, also
    across the break points of the piecewise formulas. *)
Theorem fan_targets_monotone t1 t2 :
  t1 <= t2 ->
  cpu_fan_target t1 <= cpu_fan_target t2
  /\ gpu_fan_target t1 <= gpu_fan_target t2
  /\ case_fan_target t1 <= case_fan_target t2.
Proof.
  intros Ht. split; [|split].
  - now apply cpu_fan_target_mono.
  - now apply gpu_fan_target_mono.
  - now apply case_fan_target_mono.
Qed.

(** Adding at most [k] either way before the clamp moves the clamped
    value by at most [k]. *)
Lemma clamp_shift lo hi x j k :
  - k <= j <= k ->
  clamp lo hi x - k <= clamp lo hi (x + j) <= clamp lo hi x + k.
Proof.
  intros [Hj1 Hj2]. unfold clamp.
  destruct (py_min_cases hi x) as [[A1 ->] | [A1 ->]];
    destruct (py_min_cases hi (x + j)) as [[A2 ->] | [A2 ->]];
    repeat match goal with
           | |- context [py_max lo ?u] =>
               destruct (py_max_cases lo u) as [[? ->] | [? ->]]
           end;
    split; lra.
Qed.

(** X4.  When random.randint keeps to the range it is asked for,
    the speed calculate_fan_speeds leaves in a fan differs by at most the
    jitter of that fan (25, 20 and 15 rpm for the CPU, GPU and case fan)
    from the old speed moved 15 per cent of the way to its target and
    clamped to the range of the fan. *)
Theorem fan_speed_follows_target s g f :
  in_range H ->
  let s' := fst (calculate_fan_speeds s g) in
  let smooth := clamp 0 (FAN_MAX_RPM f) (approach (fan_rpm s f) (fan_target s f)) in
  smooth - inject_Z (FAN_JITTER f) <= fan_rpm s' f
  /\ fan_rpm s' f <= smooth + inject_Z (FAN_JITTER f).
Proof.
  intros [_ Hint]. cbv zeta. unfold calculate_fan_speeds.
  pose proof (Hint (-25)%Z 25%Z g ltac:(lia)) as H1.
  destruct (randint (-25) 25 g) as [j1 r1].
  pose proof (Hint (-20)%Z 20%Z r1 ltac:(lia)) as H2.
  destruct (randint (-20) 20 r1) as [j2 r2].
  pose proof (Hint (-15)%Z 15%Z r2 ltac:(lia)) as H3.
  destruct (randint (-15) 15 r2) as [j3 r3].
  cbn [fst] in *.
  destruct f;
    cbn [fst fan_rpm set_fans cpu_fan_rpm gpu_fan_rpm case_fan_rpm FAN_MAX_RPM
         FAN_JITTER fan_target];
    unfold approach;
    match goal with
    | |- ?a <= py_max ?lo (py_min ?hi (?x + inject_Z ?j)) /\ _ =>
        pose proof (clamp_shift lo hi x (inject_Z j)) as Hs
    end;
    unfold clamp in *.
  - specialize (Hs 25). apply Hs.
    change 25 with (inject_Z 25). change (- inject_Z 25) with (inject_Z (-25)).
    rewrite <- !Zle_Qle. lia.
  - specialize (Hs 20). apply Hs.
    change 20 with (inject_Z 20). change (- inject_Z 20) with (inject_Z (-20)).
    rewrite <- !Zle_Qle. lia.
  - specialize (Hs 15). apply Hs.
    change 15 with (inject_Z 15). change (- inject_Z 15) with (inject_Z (-15)).
    rewrite <- !Zle_Qle. lia.
Qed.

End FanControl.

Section Rounding.
Import Py.
Local Open Scope Q_scope.

Lemma round_half_even_bounds (a b : Z) y :
  inject_Z a <= y <= inject_Z b -> (a <= round_half_even y <= b)%Z.
Proof.
  intros [Ha Hb]. unfold round_half_even.
  pose proof (Qfloor_le y) as Hf. pose proof (Qlt_floor y) as Hl.
  assert (Hfa : (a <= Qfloor y)%Z).
  { rewrite <- (Qfloor_Z a). now apply Qfloor_resp_le. }
  assert (Hfb : (Qfloor y <= b)%Z).
  { rewrite <- (Qfloor_Z b). now apply Qfloor_resp_le. }
  assert (Hup : 0 < y - inject_Z (Qfloor y) -> (Qfloor y + 1 <= b)%Z).
  { intros Hpos. assert (inject_Z (Qfloor y) < inject_Z b) by lra.
    rewrite <- Zlt_Qlt in *. lia. }
  destruct (Qcompare (y - inject_Z (Qfloor y)) (1 # 2)) eqn:E.
  - apply Qeq_alt in E. destruct (Z.even (Qfloor y)); [lia|].
    split; [lia|]. apply Hup. rewrite E. reflexivity.
  - lia.
  - apply Qgt_alt in E. split; [lia|]. apply Hup. lra.
Qed.

Lemma py_round_bounds (a b : Z) x n :
  let scale := inject_Z (10 ^ Z.of_nat n) in
  inject_Z a / scale <= x <= inject_Z b / scale ->
  inject_Z a / scale <= py_round x n <= inject_Z b / scale.
Proof.
  cbv zeta. intros [Ha Hb]. unfold py_round.
  set (scale := inject_Z (10 ^ Z.of_nat n)) in *.
  assert (Hs : 0 < scale).
  { unfold scale. change 0 with (inject_Z 0). rewrite <- Zlt_Qlt.
    apply Z.pow_pos_nonneg; lia. }
  assert (Ea : inject_Z a == inject_Z a / scale * scale) by (field; lra).
  assert (Eb : inject_Z b == inject_Z b / scale * scale) by (field; lra).
  assert (Hy : inject_Z a <= x * scale <= inject_Z b).
  { split; [rewrite Ea | rewrite Eb]; apply Qmult_le_compat_r; lra. }
  destruct (round_half_even_bounds a b _ Hy) as [H1 H2].
  rewrite Zle_Qle in H1, H2.
  assert (Hi : 0 <= / scale) by (apply Qinv_le_0_compat; lra).
  unfold Qdiv. split; apply Qmult_le_compat_r; assumption.
Qed.

Lemma py_int_floor x : 0 <= x -> py_int x = Qfloor x.
Proof.
  intros Hx. destruct x as [n d]. unfold py_int, Qfloor. cbn [Qnum Qden].
  apply Z.quot_div_nonneg; [|lia].
  unfold Qle in Hx. cbn in Hx. lia.
Qed.

Lemma py_int_bounds (b : Z) x :
  0 <= x <= inject_Z b -> (0 <= py_int x <= b)%Z.
Proof.
  intros [H0 Hb]. rewrite py_int_floor by assumption.
  split.
  - change 0%Z with (Qfloor 0). now apply Qfloor_resp_le.
  - rewrite <- (Qfloor_Z b). now apply Qfloor_resp_le.
Qed.
End Rounding.

Section Readings.
Context `{PyRuntime}.
Import Py Config Simulator.
Local Open Scope Q_scope.

Lemma tick_bounds now s g :
  (forall c, TEMP_FLOOR c <= temperature (fst (tick now s g)) c <= COMPONENT_MAX_TEMPS c)
  /\ (forall f, 0 <= fan_rpm (fst (tick now s g)) f <= FAN_MAX_RPM f).
Proof.
  unfold tick.
  destruct (update_gaming_session s g) as [s1 g1].
  pose proof (simulate_temperature_changes_bounds now s1 g1) as Ht.
  destruct (simulate_temperature_changes now s1 g1) as [s2 g2].
  split.
  - intros c. rewrite calculate_fan_speeds_temps. apply Ht.
  - intros f. apply calculate_fan_speeds_bounds.
Qed.

(** Rounding to one decimal keeps a temperature within its clamps, and
    truncation keeps a fan speed within its own. *)
Lemma get_sensor_data_bounds now s :
  (forall c, TEMP_FLOOR c <= temperature s c <= COMPONENT_MAX_TEMPS c) ->
  (forall f, 0 <= fan_rpm s f <= FAN_MAX_RPM f) ->
  let r := get_sensor_data now s in
  (forall c, TEMP_FLOOR c <= reading_temperature r c <= COMPONENT_MAX_TEMPS c)
  /\ (forall f, (0 <= reading_fan_rpm r f)%Z
                /\ inject_Z (reading_fan_rpm r f) <= FAN_MAX_RPM f).
Proof.
  intros Ht Hf. cbv zeta. split.
  - intros c. specialize (Ht c).
    destruct c; cbn [reading_temperature get_sensor_data r_cpu_temp r_gpu_temp
                     r_ssd_temp r_motherboard_temp temperature TEMP_FLOOR
                     COMPONENT_MAX_TEMPS] in *.
    + pose proof (py_round_bounds 250 880 (cpu_temp s) 1) as Hr.
      cbv zeta in Hr. change (inject_Z (10 ^ Z.of_nat 1)) with 10 in Hr.
      assert (E1 : inject_Z 250 / 10 == 25.0) by reflexivity.
      assert (E2 : inject_Z 880 / 10 == 88.0) by reflexivity.
      rewrite E1, E2 in Hr. now apply Hr.
    + pose proof (py_round_bounds 250 850 (gpu_temp s) 1) as Hr.
      cbv zeta in Hr. change (inject_Z (10 ^ Z.of_nat 1)) with 10 in Hr.
      assert (E1 : inject_Z 250 / 10 == 25.0) by reflexivity.
      assert (E2 : inject_Z 850 / 10 == 85.0) by reflexivity.
      rewrite E1, E2 in Hr. now apply Hr.
    + pose proof (py_round_bounds 200 700 (ssd_temp s) 1) as Hr.
      cbv zeta in Hr. change (inject_Z (10 ^ Z.of_nat 1)) with 10 in Hr.
      assert (E1 : inject_Z 200 / 10 == 20.0) by reflexivity.
      assert (E2 : inject_Z 700 / 10 == 70.0) by reflexivity.
      rewrite E1, E2 in Hr. now apply Hr.
    + pose proof (py_round_bounds 200 600 (motherboard_temp s) 1) as Hr.
      cbv zeta in Hr. change (inject_Z (10 ^ Z.of_nat 1)) with 10 in Hr.
      assert (E1 : inject_Z 200 / 10 == 20.0) by reflexivity.
      assert (E2 : inject_Z 600 / 10 == 60.0) by reflexivity.
      rewrite E1, E2 in Hr. now apply Hr.
  - intros f. specialize (Hf f).
    destruct f; cbn [reading_fan_rpm get_sensor_data r_cpu_fan_rpm r_gpu_fan_rpm
                     r_case_fan_rpm fan_rpm FAN_MAX_RPM] in *.
    + destruct (py_int_bounds 4800 (cpu_fan_rpm s) Hf) as [H1 H2].
      split; [exact H1|]. change 4800 with (inject_Z 4800). now rewrite <- Zle_Qle.
    + destruct (py_int_bounds 4200 (gpu_fan_rpm s) Hf) as [H1 H2].
      split; [exact H1|]. change 4200 with (inject_Z 4200). now rewrite <- Zle_Qle.
    + destruct (py_int_bounds 2800 (case_fan_rpm s) Hf) as [H1 H2].
      split; [exact H1|]. change 2800 with (inject_Z 2800). now rewrite <- Zle_Qle.
Qed.

(** X5.  Whatever the generator and the clock do, n iterations of
    the main loop produce n readings, and each of them carries the
    configured device id, the four rounded temperatures within the floor
    and the configured maximum of their component, and the three integer
    fan speeds within 0 and the maximum of their fan. *)
Theorem readings_within_bounds n : forall clock calls s g,
  length (fst (main_loop n clock calls s g)) = n
  /\ forall r, In r (fst (main_loop n clock calls s g)) ->
       r_device_id r = CLIENT_ID
       /\ (forall c, TEMP_FLOOR c <= reading_temperature r c <= COMPONENT_MAX_TEMPS c)
       /\ (forall f, (0 <= reading_fan_rpm r f)%Z
                     /\ inject_Z (reading_fan_rpm r f) <= FAN_MAX_RPM f).
Proof.
  induction n as [|n IH]; intros clock calls s g; cbn [main_loop].
  - split; [reflexivity | intros r []].
  - destruct (tick_bounds (clock calls) s g) as [Ht Hf].
    destruct (tick (clock calls) s g) as [s' g']. cbn [fst] in Ht, Hf.
    specialize (IH clock (S (S calls)) s' g').
    destruct (main_loop n clock (S (S calls)) s' g') as [rest final].
    cbn [fst] in *. destruct IH as [Hlen Hall].
    split; [cbn; now rewrite Hlen|].
    intros r [<- | Hin]; [|now apply Hall].
    split; [reflexivity|]. now apply get_sensor_data_bounds.
Qed.

End Readings.

(** ** The local log and its reader *)

Section StringFacts.
Import Str.
Local Open Scope string_scope.



Lemma string_app_cons a (s t : string) : String a s ++ t = String a (s ++ t).
Proof. reflexivity. Qed.








Lemma nonempty_true s : s <> EmptyString -> nonempty s = true.
Proof. destruct s; [congruence | reflexivity]. Qed.

Lemma string_app_nonempty_r (s t : string) :
  t <> EmptyString -> s ++ t <> EmptyString.
Proof. destruct s; [trivial | discriminate]. Qed.

Lemma string_app_assoc (a b c : string) : (a ++ b) ++ c = a ++ (b ++ c).
Proof.
  induction a as [|x a IH]; [reflexivity|]. now rewrite !string_app_cons, IH.
Qed.

Lemma string_app_empty_r (a : string) : a ++ EmptyString = a.
Proof.
  induction a as [|x a IH]; [reflexivity|]. now rewrite string_app_cons, IH.
Qed.




End StringFacts.

Section LogReader.
Import Json Dashboard.
Variable json_loads : string -> option json.


Lemma repaired_nonempty text :
  Str.strip text <> EmptyString -> Str.nonempty (repaired text) = true.
Proof.
  intros Hne. unfold repaired. cbv zeta.
  rewrite (nonempty_true _ Hne). cbn [andb].
  destruct (negb (Str.endswith (Str.strip text) "]")).
  - apply nonempty_true, string_app_nonempty_r. discriminate.
  - now apply nonempty_true.
Qed.

Lemma last_skipn {A : Type} (l : list A) : forall k,
  (k < length l)%nat -> last (skipn k l) = last l.
Proof.
  induction l as [|x l IH]; intros k Hk; [cbn in Hk; lia|].
  destruct k as [|k]; [reflexivity|]. cbn [skipn].
  rewrite IH by (cbn in Hk; lia).
  destruct l; [cbn in Hk; lia | reflexivity].
Qed.

Lemma load_sensor_data_list text file_again st data :
  Str.strip text <> EmptyString ->
  json_loads (repaired text) = Some (JArray data) ->
  load_sensor_data json_loads (Content text) file_again st
  = set_history st (Py.last_n 1000 data)
      (default (current_sensor_data st) (last (Py.last_n 1000 data))).
Proof.
  intros Hne Hdec. pose proof (repaired_nonempty text Hne) as Hn.
  unfold repaired in Hn, Hdec. cbv zeta in Hn, Hdec.
  unfold load_sensor_data. cbv zeta. rewrite Hn, Hdec.
  assert (Eh : (if (1000 <? Z.of_nat (length data))%Z then Py.last_n 1000 data else data)
               = Py.last_n 1000 data).
  { destruct (1000 <? Z.of_nat (length data))%Z eqn:E; [reflexivity|].
    apply Z.ltb_ge in E. unfold Py.last_n.
    replace (length data - 1000)%nat with 0%nat by lia. reflexivity. }
  rewrite Eh. now destruct (last (Py.last_n 1000 data)).
Qed.

Lemma load_sensor_data_blank text file_again st :
  Str.strip text = EmptyString ->
  load_sensor_data json_loads (Content text) file_again st
  = set_history st [] (current_sensor_data st).
Proof. intros E. unfold load_sensor_data. cbv zeta. now rewrite E. Qed.

(** X6.  When the text of the log, repaired as load_sensor_data
    repairs it, decodes to a list, the history becomes the last 1000
    entries of that list (all of them when there are fewer), in their
    order; the current reading becomes the last entry of the list, or
    stays what it was when the list is empty; the stored recommendation
    is not touched. *)
Theorem load_keeps_the_last_1000 text file_again st data :
  Str.strip text <> EmptyString ->
  json_loads (repaired text) = Some (JArray data) ->
  let st' := load_sensor_data json_loads (Content text) file_again st in
  sensor_history st' = Py.last_n 1000 data
  /\ (length (sensor_history st') <= 1000)%nat
  /\ (exists older, data = older ++ sensor_history st')
  /\ current_sensor_data st' = default (current_sensor_data st) (last data)
  /\ ai_recommendations st' = ai_recommendations st.
Proof.
  intros Hne Hdec. cbv zeta.
  rewrite (load_sensor_data_list text file_again st data Hne Hdec).
  cbn [sensor_history current_sensor_data ai_recommendations set_history].
  unfold Py.last_n.
  split; [reflexivity|]. split; [rewrite length_skipn; lia|].
  split; [exists (firstn (length data - 1000) data); now rewrite firstn_skipn|].
  split; [|reflexivity].
  destruct data as [|x data]; [reflexivity|].
  now rewrite last_skipn by (cbn; lia).
Qed.

(** X7.  A log that holds only white space empties the history
    and leaves the current reading as it was, whereas a log that cannot be
    opened resets the current reading to the empty dictionary. *)
Theorem blank_log_keeps_the_current_reading text file_again st :
  Str.strip text = EmptyString ->
  let st' := load_sensor_data json_loads (Content text) file_again st in
  sensor_history st' = []
  /\ current_sensor_data st' = current_sensor_data st
  /\ current_sensor_data
       (load_sensor_data json_loads FileNotFoundError file_again st)
     = JObject ∅.
Proof.
  intros E. cbv zeta. rewrite (load_sensor_data_blank text file_again st E).
  repeat split; reflexivity.
Qed.


End LogReader.

Section LogWriter.
Import Json LocalLog.
Context {A : Type}.
Variable json_dumps : A -> option string.

(** X9.  log_data_locally and finalize_local_log never change what
    is already in the log, they only add to its end (possibly nothing);
    log_data_locally reports success exactly when the file could be opened
    and the record could be encoded. *)
Theorem log_is_append_only can_open r is_first_entry disk :
  (exists added,
     text_of (snd (log_data_locally json_dumps can_open r is_first_entry disk))
     = (text_of disk ++ added)%string)
  /\ (exists added,
        text_of (finalize_local_log can_open disk) = (text_of disk ++ added)%string)
  /\ (fst (log_data_locally json_dumps can_open r is_first_entry disk) = true
      <-> can_open = true /\ json_dumps r <> None).
Proof.
  unfold log_data_locally, finalize_local_log.
  destruct can_open.
  - split; [|split].
    + destruct (json_dumps r) as [dumped|], is_first_entry; cbn [snd text_of default id].
      * eexists. reflexivity.
      * exists ("," ++ newline ++ "  " ++ indent_lines dumped)%string.
        now rewrite !string_app_assoc.
      * exists EmptyString. now rewrite string_app_empty_r.
      * eexists. reflexivity.
    + eexists. reflexivity.
    + destruct (json_dumps r) as [dumped|]; cbn [fst].
      * split; [intros _; split; [reflexivity | discriminate] | reflexivity].
      * split; [discriminate | intros [_ Hn]; now destruct Hn].
  - cbn [fst snd]. split; [|split].
    + exists EmptyString. now rewrite string_app_empty_r.
    + exists EmptyString. now rewrite string_app_empty_r.
    + split; [discriminate | intros [Hc _]; discriminate Hc].
Qed.



End LogWriter.

Section Startup.
Import Json Dashboard StartDashboard.
Variable json_loads : string -> option json.



End Startup.

(** ** More on the telemetry aggregator *)

Section AggregatorResults.
Context `{PyRuntime}.
Import Py Json Optimizer.
Local Open Scope Q_scope.

Ltac binds := cbn [mbind result_bind bind mret result_ret].

Lemma mapM_length {A B : Type} (f : A -> result B) (l : list A) : forall k,
  mapM f l = Ok k -> length k = length l.
Proof.
  induction l as [|x l IH]; intros k; cbn [mapM]; binds.
  - now intros [= <-].
  - destruct (f x) as [y|e]; binds; [|discriminate].
    destruct (mapM f l) as [k'|e]; binds; [|discriminate].
    intros [= <-]. cbn. now rewrite (IH k' eq_refl).
Qed.

Lemma len_pos {A : Type} (x : A) (xs : list A) : 0 < len (x :: xs).
Proof. unfold len. change 0 with (inject_Z 0). rewrite <- Zlt_Qlt. cbn. lia. Qed.

Lemma fold_min_lower rest : forall x,
  fold_left py_min rest x <= x
  /\ forall y, In y rest -> fold_left py_min rest x <= y.
Proof.
  induction rest as [|z rest IH]; intros x; cbn [fold_left].
  - split; [lra | intros y []].
  - destruct (IH (py_min x z)) as [H1 H2].
    destruct (py_min_cases x z) as [[Hlt E] | [Hle E]]; rewrite E in *;
      (split; [lra | intros y [<- | Hy]; [lra | now apply H2]]).
Qed.

Lemma fold_max_upper rest : forall x,
  x <= fold_left py_max rest x
  /\ forall y, In y rest -> y <= fold_left py_max rest x.
Proof.
  induction rest as [|z rest IH]; intros x; cbn [fold_left].
  - split; [lra | intros y []].
  - destruct (IH (py_max x z)) as [H1 H2].
    destruct (py_max_cases x z) as [[Hlt E] | [Hle E]]; rewrite E in *;
      (split; [lra | intros y [<- | Hy]; [lra | now apply H2]]).
Qed.





(** What a returned summary was computed from. *)
Lemma analyze_inv data s :
  analyze_temperature_data data = Ok (Summary s) ->
  exists dicts c1 c2 c3 c4 f1 f2 f3 gi,
    mapM as_dict data = Ok dicts
    /\ column "cpu_temp" dicts = Ok c1
    /\ column "gpu_temp" dicts = Ok c2
    /\ column "ssd_temp" dicts = Ok c3
    /\ column "motherboard_temp" dicts = Ok c4
    /\ column "cpu_fan_rpm" dicts = Ok f1
    /\ column "gpu_fan_rpm" dicts = Ok f2
    /\ column "case_fan_rpm" dicts = Ok f3
    /\ column "gaming_intensity" dicts = Ok gi
    /\ temp_summary c1 = Ok (cpu s)
    /\ temp_summary c2 = Ok (gpu s)
    /\ temp_summary c3 = Ok (ssd s)
    /\ temp_summary c4 = Ok (motherboard s)
    /\ fan_summary f1 = Ok (cpu_fan (fans s))
    /\ fan_summary f2 = Ok (gpu_fan (fans s))
    /\ fan_summary f3 = Ok (case_fan (fans s))
    /\ gaming s
       = (let n :=
            Z.of_nat
              (length
                 (filter
                    (fun d => truthy (get d "gaming_session" (JBool false)) = true)
                    dicts)) in
          {| sessions := n;
             avg_intensity := py_sum gi / len data;
             gaming_percentage := inject_Z n / len data * 100 |})
    /\ data_points s = Z.of_nat (length data)
    /\ _calculate_time_span dicts = Ok (time_span_hours s).
Proof.
  unfold analyze_temperature_data. destruct data as [|v data]; [discriminate|].
  set (l := v :: data).
  destruct (mapM as_dict l) as [dicts|] eqn:E1; binds; [|discriminate].
  destruct (column "cpu_temp" dicts) as [c1|] eqn:E2; binds; [|discriminate].
  destruct (column "gpu_temp" dicts) as [c2|] eqn:E3; binds; [|discriminate].
  destruct (column "ssd_temp" dicts) as [c3|] eqn:E4; binds; [|discriminate].
  destruct (column "motherboard_temp" dicts) as [c4|] eqn:E5; binds; [|discriminate].
  destruct (column "cpu_fan_rpm" dicts) as [f1|] eqn:E6; binds; [|discriminate].
  destruct (column "gpu_fan_rpm" dicts) as [f2|] eqn:E7; binds; [|discriminate].
  destruct (column "case_fan_rpm" dicts) as [f3|] eqn:E8; binds; [|discriminate].
  destruct (column "gaming_intensity" dicts) as [gi|] eqn:E9; binds; [|discriminate].
  destruct (temp_summary c1) as [t1|] eqn:E10; binds; [|discriminate].
  destruct (temp_summary c2) as [t2|] eqn:E11; binds; [|discriminate].
  destruct (temp_summary c3) as [t3|] eqn:E12; binds; [|discriminate].
  destruct (temp_summary c4) as [t4|] eqn:E13; binds; [|discriminate].
  destruct (fan_summary f1) as [u1|] eqn:E14; binds; [|discriminate].
  destruct (fan_summary f2) as [u2|] eqn:E15; binds; [|discriminate].
  destruct (fan_summary f3) as [u3|] eqn:E16; binds; [|discriminate].
  destruct (_calculate_time_span dicts) as [span|] eqn:E17; binds; [|discriminate].
  intros [= <-]. exists dicts, c1, c2, c3, c4, f1, f2, f3, gi.
  cbn [cpu gpu ssd motherboard fans cpu_fan gpu_fan case_fan gaming data_points
       time_span_hours].
  repeat split; assumption || reflexivity.
Qed.



Lemma py_max_list_cons x xs : py_max_list (x :: xs) = Ok (fold_left py_max xs x).
Proof. reflexivity. Qed.

Lemma py_min_list_cons x xs : py_min_list (x :: xs) = Ok (fold_left py_min xs x).
Proof. reflexivity. Qed.

Lemma time_span_nonneg dicts span :
  _calculate_time_span dicts = Ok span -> 0 <= span.
Proof.
  unfold _calculate_time_span.
  destruct (Z.of_nat (length dicts) <? 2)%Z; [intros [= <-]; lra|].
  destruct (column "timestamp" dicts) as [[|t ts]|]; binds; try discriminate.
  rewrite py_max_list_cons, py_min_list_cons. binds. intros [= <-].
  destruct (fold_min_lower ts t) as [L _].
  destruct (fold_max_upper ts t) as [U _].
  apply Qle_shift_div_l; lra.
Qed.

Lemma length_filter_le {A : Type} (P : A -> Prop) `{forall x, Decision (P x)}
    (l : list A) :
  (length (filter P l) <= length l)%nat.
Proof.
  induction l as [|x l IH]; [cbn; lia|].
  rewrite filter_cons. destruct (decide (P x)); cbn [length]; lia.
Qed.


(** X14.  In every summary analyze_temperature_data returns,
    data_points is the length of the input and is positive, the number of
    gaming readings lies between 0 and data_points, gaming_percentage
    lies between 0 and 100, and time_span_hours is not negative. *)
Theorem summary_counts data s :
  analyze_temperature_data data = Ok (Summary s) ->
  data_points s = Z.of_nat (length data)
  /\ (0 < data_points s)%Z
  /\ (0 <= sessions (gaming s) <= data_points s)%Z
  /\ 0 <= gaming_percentage (gaming s) <= 100
  /\ 0 <= time_span_hours s.
Proof.
  intros Ha.
  destruct (analyze_inv data s Ha)
    as (dicts & c1 & c2 & c3 & c4 & f1 & f2 & f3 & gi & D & _ & _ & _ & _ & _ & _
        & _ & _ & _ & _ & _ & _ & _ & _ & _ & G & P & T).
  apply mapM_length in D.
  destruct data as [|v data]; [discriminate|].
  pose proof (len_pos v data) as Hp.
  pose proof (length_filter_le
                (fun d => truthy (get d "gaming_session" (JBool false)) = true) dicts)
    as Hf.
  rewrite G, P. cbn [sessions gaming_percentage].
  set (k := length (filter _ dicts)) in *.
  assert (Hk : 0 <= inject_Z (Z.of_nat k) <= len (v :: data)).
  { unfold len. rewrite <- D. change 0 with (inject_Z 0).
    rewrite <- !Zle_Qle. lia. }
  split; [reflexivity|]. split; [cbn [length]; lia|]. split; [lia|].
  split; [split|].
  - apply Qmult_le_0_compat; [|lra]. apply Qle_shift_div_l; lra.
  - assert (inject_Z (Z.of_nat k) / len (v :: data) <= 1)
      by (apply Qle_shift_div_r; lra).
    lra.
  - now apply (time_span_nonneg dicts).
Qed.


Lemma mapM_as_dict_raise data v :
  In v data -> is_dict v = false -> mapM as_dict data = Raise AttributeError.
Proof.
  induction data as [|a data IH]; intros Hin Hv; [destruct Hin|].
  cbn [mapM]. destruct a; binds; try reflexivity.
  destruct Hin as [<- | Hin]; [cbn in Hv; discriminate|].
  rewrite (IH Hin Hv). reflexivity.
Qed.

(** X15.  If any element of the input is not a dictionary,
    analyze_temperature_data raises AttributeError, wherever the element
    stands and whatever the other elements are. *)
Theorem non_dict_record_raises_attribute_error data v :
  In v data -> is_dict v = false ->
  analyze_temperature_data data = Raise AttributeError.
Proof.
  intros Hin Hv. unfold analyze_temperature_data.
  destruct data as [|a data]; [destruct Hin|].
  rewrite (mapM_as_dict_raise (a :: data) v Hin Hv). reflexivity.
Qed.



Lemma mapM_as_dict_objects dicts : mapM as_dict (map JObject dicts) = Ok dicts.
Proof.
  induction dicts as [|d dicts IH]; [reflexivity|].
  cbn [map mapM]. rewrite IH. reflexivity.
Qed.


End AggregatorResults.

(** ** More on the recommender *)

Section LocalCurves.
Import Py Json Optimizer.
Local Open Scope Q_scope.
Variable now : string.

Ltac lookups :=
  repeat (rewrite lookup_insert_eq || rewrite lookup_insert_ne by discriminate
          || rewrite lookup_singleton_eq).

Lemma base_row_most_quiet :
  base_curves !! "most_quiet"
  = Some ({[ "cpu_fan" := [600; 1000; 1600; 2400; 3200];
             "gpu_fan" := [0; 800; 1800; 3000; 3400];
             "case_fan" := [400; 700; 1200; 1800; 2200] ]}%Z : gmap string (list Z)).
Proof. unfold base_curves. lookups. reflexivity. Qed.

Lemma base_row_balanced :
  base_curves !! "balanced"
  = Some ({[ "cpu_fan" := [700; 1200; 1900; 3000; 3800];
             "gpu_fan" := [0; 1000; 2100; 3400; 3800];
             "case_fan" := [500; 850; 1400; 2100; 2500] ]}%Z : gmap string (list Z)).
Proof. unfold base_curves. lookups. reflexivity. Qed.

Lemma base_row_best_temps :
  base_curves !! "best_temps"
  = Some ({[ "cpu_fan" := [800; 1400; 2200; 3600; 4500];
             "gpu_fan" := [0; 1200; 2400; 3900; 4200];
             "case_fan" := [600; 1000; 1600; 2400; 2800] ]}%Z : gmap string (list Z)).
Proof. unfold base_curves. lookups. reflexivity. Qed.

Lemma raised_increasing hot k c :
  Sorted.StronglySorted Z.lt c -> Sorted.StronglySorted Z.lt (raised hot k c).
Proof.
  destruct hot; cbn [raised]; [|auto].
  induction 1 as [|x c Hs IH Hx]; cbn [map]; constructor; [exact IH|].
  clear -Hx. induction Hx as [|y c Hy _ IH]; cbn [map]; constructor; [lia | exact IH].
Qed.

Lemma raised_le hot k c1 c2 :
  Forall2 Z.le c1 c2 -> Forall2 Z.le (raised hot k c1) (raised hot k c2).
Proof.
  destruct hot; cbn [raised]; [|auto].
  induction 1; cbn [map]; constructor; [lia | assumption].
Qed.

(** X17.  For every analysis and every preference of the table,
    each of the three curves the local policy returns is strictly
    increasing from one break point to the next. *)
Theorem local_curves_increase a p :
  In p preferences ->
  exists curves notes,
    _generate_simulated_curves now a p = Ok (Simulated p curves a notes now)
    /\ forall fan, In fan fan_ids ->
         exists curve, curves !! fan = Some curve /\ Sorted.StronglySorted Z.lt curve.
Proof.
  intros Hp.
  destruct (In_preferences p Hp) as [-> | [-> | ->]].
  - destruct (simulated_curves_spec now a _ _ _ _ _ base_row_balanced
                ltac:(lookups; reflexivity) ltac:(lookups; reflexivity)
                ltac:(lookups; reflexivity))
      as (curves & notes & Hsim & Ec & Eg & Ek).
    exists curves, notes. split; [exact Hsim|].
    intros fan [<- | [<- | [<- | []]]]; eexists; (split; [eassumption|]);
      apply raised_increasing; repeat constructor.
  - destruct (simulated_curves_spec now a _ _ _ _ _ base_row_best_temps
                ltac:(lookups; reflexivity) ltac:(lookups; reflexivity)
                ltac:(lookups; reflexivity))
      as (curves & notes & Hsim & Ec & Eg & Ek).
    exists curves, notes. split; [exact Hsim|].
    intros fan [<- | [<- | [<- | []]]]; eexists; (split; [eassumption|]);
      apply raised_increasing; repeat constructor.
  - destruct (simulated_curves_spec now a _ _ _ _ _ base_row_most_quiet
                ltac:(lookups; reflexivity) ltac:(lookups; reflexivity)
                ltac:(lookups; reflexivity))
      as (curves & notes & Hsim & Ec & Eg & Ek).
    exists curves, notes. split; [exact Hsim|].
    intros fan [<- | [<- | [<- | []]]]; eexists; (split; [eassumption|]);
      apply raised_increasing; repeat constructor.
Qed.

(** X18.  For one and the same analysis the local policy orders
    the three preferences: set point by set point and fan by fan, the
    most_quiet curve is at most the balanced curve, which is at most the
    best_temps curve. *)
Theorem preferences_are_ordered a :
  exists quiet balanced cool nq nb nc,
    _generate_simulated_curves now a "most_quiet"
    = Ok (Simulated "most_quiet" quiet a nq now)
    /\ _generate_simulated_curves now a "balanced"
       = Ok (Simulated "balanced" balanced a nb now)
    /\ _generate_simulated_curves now a "best_temps"
       = Ok (Simulated "best_temps" cool a nc now)
    /\ forall fan, In fan fan_ids ->
         exists q b c,
           quiet !! fan = Some q /\ balanced !! fan = Some b /\ cool !! fan = Some c
           /\ Forall2 Z.le q b /\ Forall2 Z.le b c.
Proof.
  destruct (simulated_curves_spec now a _ _ _ _ _ base_row_most_quiet
              ltac:(lookups; reflexivity) ltac:(lookups; reflexivity)
              ltac:(lookups; reflexivity))
    as (quiet & nq & Hq & Qc & Qg & Qk).
  destruct (simulated_curves_spec now a _ _ _ _ _ base_row_balanced
              ltac:(lookups; reflexivity) ltac:(lookups; reflexivity)
              ltac:(lookups; reflexivity))
    as (balanced & nb & Hb & Bc & Bg & Bk).
  destruct (simulated_curves_spec now a _ _ _ _ _ base_row_best_temps
              ltac:(lookups; reflexivity) ltac:(lookups; reflexivity)
              ltac:(lookups; reflexivity))
    as (cool & nc & Hc & Cc & Cg & Ck).
  exists quiet, balanced, cool, nq, nb, nc.
  split; [exact Hq|]. split; [exact Hb|]. split; [exact Hc|].
  intros fan [<- | [<- | [<- | []]]]; do 3 eexists;
    (split; [eassumption|]); (split; [eassumption|]); (split; [eassumption|]);
    split; apply raised_le; repeat constructor; lia.
Qed.

End LocalCurves.

Section RemoteAnswers.
Import Py Json Optimizer.
Local Open Scope Q_scope.
Variable json_loads : string -> option json.
Variable requests_post : request -> http_outcome.
Variable now : string.

Ltac binds := cbn [mbind result_bind bind mret result_ret].

Lemma try_except_ok {A : Type} (body : result A) (r : A) :
  exists r', try_except body (fun _ => Ok r) = Ok r'.
Proof. destruct body; eexists; reflexivity. Qed.

(** X19.  For a preference of the table generate_fan_curves
    returns a recommendation whatever the advisory service answers and
    whatever the decoder makes of it, in simulation mode or not. *)
Theorem table_preference_never_raises self a p :
  In p preferences ->
  exists r, generate_fan_curves json_loads requests_post now self a p = Ok r.
Proof.
  intros Hp.
  destruct (simulated_curves_valid now a p Hp) as (r & Hr & _).
  unfold generate_fan_curves. destruct (use_simulation self); [eauto|].
  unfold _generate_claude_curves. rewrite Hr. apply try_except_ok.
Qed.

(** X20.  An optimizer built with no key, neither passed nor in the
    environment (an empty key counts as none), answers with the local
    policy; and so does every optimizer for an empty analysis, since
    building the prompt raises before the request is sent: in both cases
    the result does not depend on the advisory service. *)
Theorem service_not_consulted key env_key self a p :
  (is_set key = false -> is_set env_key = false ->
   generate_fan_curves json_loads requests_post now (new key env_key) a p
   = _generate_simulated_curves now a p)
  /\ generate_fan_curves json_loads requests_post now self EmptyAnalysis p
     = _generate_simulated_curves now EmptyAnalysis p.
Proof.
  split.
  - intros Hk He. unfold generate_fan_curves, new. rewrite Hk. cbn [use_simulation].
    rewrite He. reflexivity.
  - unfold generate_fan_curves. destruct (use_simulation self); reflexivity.
Qed.

(** X21.  When the advisory service answers the request with
    status 200 and a text from whose first opening to last closing brace
    a dictionary decodes, with a dictionary (or nothing) under analysis,
    generate_fan_curves returns that answer marked as AI generated, for
    any preference, known to the table or not: the curves are whatever
    stood under fan_curves, unchecked, so that an answer without
    fan_curves yields a recommendation without the three curves. *)
Theorem remote_answer_is_passed_through self s p body text d n :
  use_simulation self = false ->
  requests_post {| x_api_key := api_key self;
                   request_model := model self;
                   max_tokens := 1000;
                   content := {| prompt_summary := s; prompt_preference := p |} |}
  = Response 200 body ->
  advisory_text json_loads body = Some (JString text) ->
  Str.find text "{" <> (-1)%Z ->
  (Str.find text "{" <= Str.rfind text "}")%Z ->
  json_loads (Str.slice text (Str.find text "{") (Str.rfind text "}" + 1))
  = Some (JObject d) ->
  get d "analysis" (JObject ∅) = JObject n ->
  generate_fan_curves json_loads requests_post now self (Summary s) p
  = Ok (AiGenerated p (get d "fan_curves" (JObject ∅)) (Summary s) (JObject n)
          {| efficiency := get n "efficiency" (JString "Analysis complete");
             recommendations :=
               get n "recommendations" (JString "Optimized for your usage");
             temperature_improvement :=
               get n "temperature_improvement" (JString "Improved cooling expected");
             noise_impact := get n "noise_impact" (JString "Balanced noise levels") |}
          now)
  /\ (d !! "fan_curves" = None ->
      forall r, generate_fan_curves json_loads requests_post now self (Summary s) p
                = Ok r -> ~ valid_recommendation r).
Proof.
  intros Hs Hpost Htext Hfind Hspan Hdec Han.
  assert (E : generate_fan_curves json_loads requests_post now self (Summary s) p
              = Ok (AiGenerated p (get d "fan_curves" (JObject ∅)) (Summary s)
                      (JObject n)
                      {| efficiency := get n "efficiency" (JString "Analysis complete");
                         recommendations :=
                           get n "recommendations" (JString "Optimized for your usage");
                         temperature_improvement :=
                           get n "temperature_improvement"
                               (JString "Improved cooling expected");
                         noise_impact :=
                           get n "noise_impact" (JString "Balanced noise levels") |}
                      now)).
  { unfold generate_fan_curves. rewrite Hs. unfold _generate_claude_curves.
    cbn [_build_claude_prompt]. binds. rewrite Hpost. cbn [Z.eqb Pos.eqb].
    rewrite (proj2 (navigate_text json_loads body _) _ Htext).
    unfold _parse_claude_response.
    apply Z.eqb_neq in Hfind. rewrite Hfind. cbn [negb andb].
    assert (Hlt : (Str.find text "{" <? Str.rfind text "}" + 1)%Z = true)
      by (apply Z.ltb_lt; lia).
    rewrite Hlt, Hdec. cbn [as_dict]. binds. rewrite Han. cbn [as_dict]. binds.
    reflexivity. }
  split; [exact E|].
  intros Hnone r Hr. rewrite E in Hr. injection Hr as <-.
  cbn [valid_recommendation]. intros (d' & Hd' & Hfans).
  unfold get in Hd'. rewrite Hnone in Hd'. cbn [default] in Hd'.
  injection Hd' as <-.
  destruct (Hfans "cpu_fan"%string) as (v & Hv & _); [cbn; auto|].
  rewrite lookup_empty in Hv. discriminate.
Qed.

End RemoteAnswers.

(** ** The dashboard's own analysis and its recommendation request *)

Section DashboardAnalysis.
Context `{PyRuntime}.
Import Py Json Optimizer.
Local Open Scope Q_scope.

Ltac binds := cbn [mbind result_bind bind mret result_ret].

Lemma column_of_subscript key data : forall dicts vs c,
  mapM as_dict data = Ok dicts ->
  mapM (fun d => subscript d key) data = Ok vs ->
  mapM as_number vs = Ok c ->
  column key dicts = Ok c.
Proof.
  unfold column.
  induction data as [|v data IH]; intros dicts vs c; cbn [mapM]; binds.
  - intros [= <-] [= <-]. cbn [mapM]; binds. now intros [= <-].
  - destruct v as [| | | | |d]; cbn [as_dict]; binds; try discriminate.
    destruct (mapM as_dict data) as [dicts'|]; binds; [|discriminate].
    intros [= <-]. cbn [subscript]. unfold getitem.
    destruct (d !! key) as [x|] eqn:Ex; binds; [|discriminate].
    destruct (mapM (fun d0 => subscript d0 key) data) as [vs'|]; binds; [|discriminate].
    intros [= <-]. cbn [mapM]; binds.
    destruct (as_number x) as [q|] eqn:Eq; binds; [|discriminate].
    destruct (mapM as_number vs') as [c'|] eqn:E; binds; [|discriminate].
    intros [= <-].
    change (get d key (JNum 0)) with (default (JNum 0) (d !! key)).
    rewrite Ex. cbn [default id]. rewrite Eq. binds.
    rewrite (IH dicts' vs' c' eq_refl eq_refl E). reflexivity.
Qed.

Lemma channel_of_temp_summary values ch t :
  Patterns.channel_of values = Ok ch -> temp_summary values = Ok t ->
  Patterns.avg ch = avg t /\ Patterns.max ch = max t /\ Patterns.min ch = min t.
Proof.
  destruct values as [|x xs]; [discriminate|].
  rewrite temp_summary_cons. unfold Patterns.channel_of.
  cbn [py_max_list py_min_list]; binds.
  intros [= <-] [= <-]. repeat split.
Qed.

Lemma patterns_inv data c g n :
  Patterns.analyze_temperature_patterns data = Ok (Patterns.Patterns c g n) ->
  exists dicts cv gv ct gt,
    mapM as_dict data = Ok dicts
    /\ mapM (fun d => subscript d "cpu_temp") data = Ok cv
    /\ mapM (fun d => subscript d "gpu_temp") data = Ok gv
    /\ mapM as_number cv = Ok ct /\ mapM as_number gv = Ok gt
    /\ Patterns.channel_of ct = Ok c /\ Patterns.channel_of gt = Ok g
    /\ n = Z.of_nat
             (length
                (filter (fun d => truthy (get d "gaming_session" (JBool false)) = true)
                        dicts)).
Proof.
  unfold Patterns.analyze_temperature_patterns.
  destruct data as [|v data]; [discriminate|]. set (l := v :: data).
  destruct (mapM (fun d => subscript d "cpu_temp") l) as [cv|] eqn:E1; binds;
    [|discriminate].
  destruct (mapM (fun d => subscript d "gpu_temp") l) as [gv|] eqn:E2; binds;
    [|discriminate].
  destruct (mapM as_dict l) as [dicts|] eqn:E3; binds; [|discriminate].
  destruct (mapM as_number cv) as [ct|] eqn:E4; binds; [|discriminate].
  destruct (Patterns.channel_of ct) as [c'|] eqn:E5; binds; [|discriminate].
  destruct (mapM as_number gv) as [gt|] eqn:E6; binds; [|discriminate].
  destruct (Patterns.channel_of gt) as [g'|] eqn:E7; binds; [|discriminate].
  intros [= <- <- <-]. exists dicts, cv, gv, ct, gt. repeat split; assumption.
Qed.

(** X22.  Whenever analyze_temperature_patterns of app.py and
    analyze_temperature_data of claude_ai.py both return on the same
    readings, they report the same average, maximum and minimum for the
    CPU and for the GPU and the same number of gaming readings. *)
Theorem patterns_agree_with_summary data c g n s :
  Patterns.analyze_temperature_patterns data = Ok (Patterns.Patterns c g n) ->
  analyze_temperature_data data = Ok (Summary s) ->
  (Patterns.avg c = avg (cpu s) /\ Patterns.max c = max (cpu s)
   /\ Patterns.min c = min (cpu s))
  /\ (Patterns.avg g = avg (gpu s) /\ Patterns.max g = max (gpu s)
      /\ Patterns.min g = min (gpu s))
  /\ n = sessions (gaming s).
Proof.
  intros Hp Ha.
  destruct (patterns_inv data c g n Hp)
    as (dicts & cv & gv & ct & gt & D & Cv & Gv & Ct & Gt & Cc & Cg & ->).
  destruct (analyze_inv data s Ha)
    as (dicts' & c1 & c2 & c3 & c4 & f1 & f2 & f3 & gi & D' & C1 & C2 & _ & _ & _ & _
        & _ & _ & T1 & T2 & _ & _ & _ & _ & _ & G & _).
  rewrite D in D'. injection D' as <-.
  pose proof (column_of_subscript "cpu_temp" data dicts cv ct D Cv Ct) as K1.
  pose proof (column_of_subscript "gpu_temp" data dicts gv gt D Gv Gt) as K2.
  rewrite K1 in C1. injection C1 as <-.
  rewrite K2 in C2. injection C2 as <-.
  split; [now apply (channel_of_temp_summary ct)|].
  split; [now apply (channel_of_temp_summary gt)|].
  rewrite G. reflexivity.
Qed.

Lemma mapM_getitem_raise key dicts d :
  In d dicts -> d !! key = None ->
  mapM (fun v => subscript v key) (map JObject dicts) = Raise (KeyError key).
Proof.
  induction dicts as [|a dicts IH]; intros Hin Hk; [destruct Hin|].
  cbn [map mapM subscript]. unfold getitem.
  destruct (a !! key) as [x|] eqn:E; binds; [|reflexivity].
  destruct Hin as [-> | Hin]; [congruence|].
  rewrite (IH Hin Hk). reflexivity.
Qed.

Lemma column_default key dicts d : forall c,
  In d dicts -> d !! key = None -> column key dicts = Ok c -> In 0 c.
Proof.
  unfold column. induction dicts as [|a dicts IH]; intros c Hin Hk; [destruct Hin|].
  cbn [mapM].
  destruct (as_number (get a key (JNum 0))) as [q|] eqn:Eq; binds; [|discriminate].
  destruct (mapM _ dicts) as [c'|] eqn:E; binds; [|discriminate].
  intros [= <-]. destruct Hin as [-> | Hin].
  - left. unfold get in Eq. rewrite Hk in Eq. cbn in Eq. congruence.
  - right. now apply IH.
Qed.

(** X23.  The two analyses differ on a record without cpu_temp:
    analyze_temperature_patterns raises KeyError for that key, whereas
    analyze_temperature_data counts the record as zero degrees, so that
    the minimum CPU temperature it reports is at most 0. *)
Theorem missing_temperature_key dicts d :
  In d dicts -> d !! "cpu_temp" = None ->
  Patterns.analyze_temperature_patterns (map JObject dicts)
  = Raise (KeyError "cpu_temp")
  /\ forall s, analyze_temperature_data (map JObject dicts) = Ok (Summary s) ->
               min (cpu s) <= 0.
Proof.
  intros Hin Hk. split.
  - unfold Patterns.analyze_temperature_patterns.
    destruct dicts as [|a dicts]; [destruct Hin|].
    change (map JObject (a :: dicts)) with (JObject a :: map JObject dicts).
    cbv iota. change (JObject a :: map JObject dicts) with (map JObject (a :: dicts)).
    rewrite (mapM_getitem_raise "cpu_temp" (a :: dicts) d Hin Hk). reflexivity.
  - intros s Ha.
    destruct (analyze_inv _ s Ha)
      as (dicts' & c1 & c2 & c3 & c4 & f1 & f2 & f3 & gi & D & C1 & _ & _ & _ & _ & _
          & _ & _ & T1 & _).
    rewrite mapM_as_dict_objects in D. injection D as <-.
    pose proof (column_default "cpu_temp" dicts d c1 Hin Hk C1) as H0.
    destruct c1 as [|x xs]; [destruct H0|].
    rewrite temp_summary_cons in T1. injection T1 as <-. cbn [min].
    destruct (fold_min_lower xs x) as [L1 L2].
    destruct H0 as [<- | H0]; [exact L1 | now apply L2].
Qed.

End DashboardAnalysis.

Section RecommendationRequest.
Context `{PyRuntime}.
Import Py Json Optimizer Dashboard.
Variable json_loads : string -> option json.
Variable requests_post : request -> http_outcome.
Variable now : string.
Variable claude_optimizer : ClaudeAIOptimizer.

Ltac binds := cbn [mbind result_bind bind mret result_ret].

Lemma last_n_app {A : Type} (n : nat) (old recent : list A) :
  length recent = n -> last_n n (old ++ recent) = recent.
Proof.
  intros <-. unfold last_n. rewrite List.length_app.
  replace (length old + length recent - length recent)%nat with (length old) by lia.
  rewrite skipn_app, Nat.sub_diag, skipn_all. reflexivity.
Qed.

(** X24.  Called without a sample, generate_ai_fan_curves works
    on the last 100 readings of the history and on nothing older: with a
    history that ends in 100 readings the call equals the one that is
    given these 100 as its sample; an empty sample counts as none. *)
Theorem request_uses_last_100 preference old recent st :
  length recent = 100%nat ->
  sensor_history st = (old ++ recent)%list ->
  generate_ai_fan_curves json_loads requests_post now claude_optimizer
    preference None st
  = generate_ai_fan_curves json_loads requests_post now claude_optimizer
      preference (Some recent) st
  /\ generate_ai_fan_curves json_loads requests_post now claude_optimizer
       preference (Some []) st
     = generate_ai_fan_curves json_loads requests_post now claude_optimizer
         preference None st.
Proof.
  intros Hlen Hh. split; [|reflexivity].
  unfold generate_ai_fan_curves. rewrite Hh.
  assert (E : (100 <=? Z.of_nat (length (old ++ recent)))%Z = true).
  { apply Z.leb_le. rewrite List.length_app. lia. }
  rewrite E, (last_n_app 100 old recent Hlen).
  destruct recent as [|x rest]; [discriminate|]. reflexivity.
Qed.

(** X25.  On a non-empty sample of readings of the simulator and
    a preference of the table, generate_ai_fan_curves returns a
    recommendation and stores it, leaving history and current reading as
    they were, whatever the advisory service does. *)
Theorem request_on_simulator_readings preference r rs st :
  In preference preferences ->
  exists rec,
    generate_ai_fan_curves json_loads requests_post now claude_optimizer
      preference (Some (map reading_json (r :: rs))) st
    = Ok (RecommendationReply rec,
          {| sensor_history := sensor_history st;
             current_sensor_data := current_sensor_data st;
             ai_recommendations := Some rec |}).
Proof.
  intros Hp. unfold generate_ai_fan_curves.
  destruct (analyze_readings r rs) as (s & Ha & _).
  change (map reading_json (r :: rs)) with (reading_json r :: map reading_json rs) in *.
  cbv iota. rewrite Ha. binds.
  assert (Hr : exists rec,
             generate_fan_curves json_loads requests_post now claude_optimizer
               (Summary s) preference = Ok rec).
  { destruct (simulated_curves_valid now (Summary s) preference Hp) as (r0 & Hr0 & _).
    unfold generate_fan_curves. destruct (use_simulation claude_optimizer); [eauto|].
    unfold _generate_claude_curves. rewrite Hr0. apply try_except_ok. }
  destruct Hr as (rec & ->). binds. eauto.
Qed.

End RecommendationRequest.

(** ** The properties at concrete inputs *)

Lemma counter_in_range : in_range counter.
Proof.
  split.
  - intros g. cbn [random counter counter_random fst].
    pose proof (Z.mod_pos_bound (Z.of_nat g) 100 ltac:(lia)) as Hm.
    split.
    + apply Qle_shift_div_l; [reflexivity|]. rewrite Qmult_0_l.
      change 0%Q with (inject_Z 0). rewrite <- Zle_Qle. lia.
    + apply Qlt_shift_div_r; [reflexivity|]. rewrite Qmult_1_l.
      change 100%Q with (inject_Z 100). rewrite <- Zlt_Qlt. lia.
  - intros a b g Hab. cbn [randint counter counter_randint fst].
    pose proof (Z.mod_pos_bound (Z.of_nat g) (b - a + 1) ltac:(lia)) as Hm. lia.
Qed.

Lemma session_lasts_at_most_201_ticks_witness :
  let s := fst (Simulator.tick (H := scripted) 1750263292 Simulator.init warmup_seed) in
  (0 <= Simulator.session_time s <= 200)%Z.
Proof.
  apply (session_lasts_at_most_201_ticks (H := scripted) _ warmup_seed).
  apply Simulator.reachable_tick, Simulator.reachable_init.
Defined.

Lemma intensity_range_witness :
  let s := fst (Simulator.tick (H := scripted) 1750263292 Simulator.init warmup_seed) in
  (Simulator.gaming_intensity s <= 1)%Q.
Proof.
  apply (intensity_range (H := scripted)).
  apply Simulator.reachable_tick, Simulator.reachable_init.
Defined.

Lemma fan_targets_monotone_witness :
  (Simulator.cpu_fan_target 40 <= Simulator.cpu_fan_target 60)%Q
  /\ (Simulator.gpu_fan_target 40 <= Simulator.gpu_fan_target 60)%Q
  /\ (Simulator.case_fan_target 40 <= Simulator.case_fan_target 60)%Q.
Proof. apply (fan_targets_monotone 40 60). vm_compute. discriminate. Defined.

Lemma fan_speed_follows_target_witness :
  let s' := fst (Simulator.calculate_fan_speeds (H := counter) Simulator.init 0%nat) in
  let smooth :=
    clamp 0 (FAN_MAX_RPM Config.cpu_fan)
      (approach (fan_rpm Simulator.init Config.cpu_fan)
                (fan_target Simulator.init Config.cpu_fan)) in
  (smooth - inject_Z (FAN_JITTER Config.cpu_fan) <= fan_rpm s' Config.cpu_fan
   /\ fan_rpm s' Config.cpu_fan <= smooth + inject_Z (FAN_JITTER Config.cpu_fan))%Q.
Proof.
  apply (fan_speed_follows_target (H := counter) Simulator.init 0%nat Config.cpu_fan).
  apply counter_in_range.
Defined.

Lemma load_keeps_the_last_1000_witness :
  exists data,
    Json.loads (repaired truncated_log) = Some (Json.JArray data)
    /\ Dashboard.sensor_history
         (Dashboard.load_sensor_data Json.loads (Dashboard.Content truncated_log)
            Dashboard.FileNotFoundError empty_state)
       = Py.last_n 1000 data.
Proof.
  eexists. split; [vm_compute; reflexivity|].
  refine (proj1 (load_keeps_the_last_1000 Json.loads truncated_log
                   Dashboard.FileNotFoundError empty_state _ _ _)).
  - vm_compute. discriminate.
  - vm_compute. reflexivity.
Defined.

Lemma blank_log_keeps_the_current_reading_witness :
  Dashboard.sensor_history
    (Dashboard.load_sensor_data Json.loads (Dashboard.Content " ")
       Dashboard.FileNotFoundError empty_state)
  = [].
Proof.
  refine (proj1 (blank_log_keeps_the_current_reading Json.loads " "
                   Dashboard.FileNotFoundError empty_state _)).
  reflexivity.
Defined.





Lemma summary_counts_witness :
  exists s,
    Optimizer.analyze_temperature_data (H := scripted) [reading_json hot_reading]
    = Py.Ok (Optimizer.Summary s)
    /\ Optimizer.data_points s = 1%Z.
Proof.
  eexists. split; [vm_compute; reflexivity|].
  refine (proj1 (summary_counts (H := scripted) [reading_json hot_reading] _ _)).
  vm_compute. reflexivity.
Defined.

Lemma non_dict_record_raises_attribute_error_witness :
  Optimizer.analyze_temperature_data (H := scripted)
    [reading_json hot_reading; Json.JNull]
  = Py.Raise Py.AttributeError.
Proof.
  apply (non_dict_record_raises_attribute_error (H := scripted)
           [reading_json hot_reading; Json.JNull] Json.JNull).
  - right. left. reflexivity.
  - reflexivity.
Defined.


Lemma local_curves_increase_witness :
  exists curves notes,
    Optimizer._generate_simulated_curves "2025-06-18T16:14:52"
      Optimizer.EmptyAnalysis "most_quiet"
    = Py.Ok (Optimizer.Simulated "most_quiet" curves Optimizer.EmptyAnalysis notes
               "2025-06-18T16:14:52")
    /\ forall fan, In fan fan_ids ->
         exists curve, curves !! fan = Some curve
                       /\ Sorted.StronglySorted Z.lt curve.
Proof.
  apply (local_curves_increase "2025-06-18T16:14:52" Optimizer.EmptyAnalysis
           "most_quiet").
  right. right. left. reflexivity.
Defined.

Lemma table_preference_never_raises_witness :
  exists r,
    Optimizer.generate_fan_curves Json.loads (answering empty_answer_body)
      "2025-06-18T16:14:52" (Optimizer.new (Some "key") None)
      (Optimizer.Summary flat_summary) "best_temps"
    = Py.Ok r.
Proof.
  apply (table_preference_never_raises Json.loads (answering empty_answer_body)
           "2025-06-18T16:14:52" (Optimizer.new (Some "key") None)
           (Optimizer.Summary flat_summary) "best_temps").
  right. left. reflexivity.
Defined.

Lemma remote_answer_is_passed_through_witness :
  exists r,
    Optimizer.generate_fan_curves Json.loads (answering empty_answer_body)
      "2025-06-18T16:14:52" (Optimizer.new (Some "key") None)
      (Optimizer.Summary flat_summary) "turbo"
    = Py.Ok r
    /\ ~ valid_recommendation r.
Proof.
  destruct (remote_answer_is_passed_through Json.loads (answering empty_answer_body)
              "2025-06-18T16:14:52" (Optimizer.new (Some "key") None)
              flat_summary "turbo" empty_answer_body "{}" ∅ ∅)
    as [E Hinvalid].
  - reflexivity.
  - reflexivity.
  - vm_compute. reflexivity.
  - vm_compute. discriminate.
  - vm_compute. discriminate.
  - vm_compute. reflexivity.
  - reflexivity.
  - eexists. split; [exact E|]. apply (Hinvalid (lookup_empty _) _ E).
Defined.

Lemma patterns_agree_with_summary_witness :
  exists c g n s,
    Patterns.analyze_temperature_patterns [reading_json hot_reading]
    = Py.Ok (Patterns.Patterns c g n)
    /\ Optimizer.analyze_temperature_data (H := scripted) [reading_json hot_reading]
       = Py.Ok (Optimizer.Summary s)
    /\ n = Optimizer.sessions (Optimizer.gaming s).
Proof.
  do 4 eexists. split; [vm_compute; reflexivity|].
  split; [vm_compute; reflexivity|].
  refine (proj2 (proj2 (patterns_agree_with_summary (H := scripted)
                          [reading_json hot_reading] _ _ _ _ _ _))).
  - vm_compute. reflexivity.
  - vm_compute. reflexivity.
Defined.

Lemma missing_temperature_key_witness :
  Patterns.analyze_temperature_patterns (map Json.JObject [∅])
  = Py.Raise (Py.KeyError "cpu_temp").
Proof.
  refine (proj1 (missing_temperature_key (H := scripted) [∅] ∅ _ _)).
  - left. reflexivity.
  - apply lookup_empty.
Defined.

Lemma request_uses_last_100_witness :
  Dashboard.generate_ai_fan_curves (H := scripted) Json.loads unreachable_service
    "2025-06-18T16:14:52" (Optimizer.new None None) "balanced" None long_history
  = Dashboard.generate_ai_fan_curves (H := scripted) Json.loads unreachable_service
      "2025-06-18T16:14:52" (Optimizer.new None None) "balanced"
      (Some (repeat (reading_json hot_reading) 100)) long_history.
Proof.
  refine (proj1 (request_uses_last_100 (H := scripted) Json.loads unreachable_service
                   "2025-06-18T16:14:52" (Optimizer.new None None) "balanced"
                   [Json.JNull] (repeat (reading_json hot_reading) 100)
                   long_history _ _)).
  - reflexivity.
  - reflexivity.
Defined.

Lemma request_on_simulator_readings_witness :
  exists rec,
    Dashboard.generate_ai_fan_curves (H := scripted) Json.loads unreachable_service
      "2025-06-18T16:14:52" (Optimizer.new None None) "balanced"
      (Some (map reading_json [hot_reading])) empty_state
    = Py.Ok (Dashboard.RecommendationReply rec,
             {| Dashboard.sensor_history := Dashboard.sensor_history empty_state;
                Dashboard.current_sensor_data :=
                  Dashboard.current_sensor_data empty_state;
                Dashboard.ai_recommendations := Some rec |}).
Proof.
  apply (request_on_simulator_readings (H := scripted) Json.loads unreachable_service
           "2025-06-18T16:14:52" (Optimizer.new None None) "balanced" hot_reading []
           empty_state).
  left. reflexivity.
Defined.
